(** * todo-api: session, authentication and authorization layer

    A shallow embedding of the request handlers of
    [AuthController] (refreshToken, signUp, signIn, googleSignIn, signOut,
    sync) and of the [Authorize] middleware (authorizeUser, authorizeTodo),
    together with the properties of the token lifecycle and of the
    authorization gates.

    The handlers are asynchronous Express middlewares working on a MongoDB
    store through mongoose models.  Here a handler is a function from the
    request and the store to an outcome and a new store.  A thrown exception
    does not roll the store back: what was written before the [throw] stays
    written, so the monad keeps the store next to the error. *)

From Stdlib Require Import String List Bool Arith Lia.
Import ListNotations.
Local Open Scope string_scope.
Local Open Scope list_scope.

(* ------------------------------------------------------------------ *)
(** ** JavaScript values the handlers look at                          *)
(* ------------------------------------------------------------------ *)

(** A value that is either [undefined] or a string.  The empty string and
    [undefined] are the falsy ones. *)
Definition truthy (v : option string) : bool :=
  match v with
  | Some s => negb (s =? "")
  | None => false
  end.

(** [a || b] *)
Definition js_or (a b : option string) : option string :=
  if truthy a then a else b.

(** The payloads given to [res.json]. *)
#[local] Unset Elimination Schemes.
Inductive Json : Type :=
| JUndefined
| JStr (s : string)
| JBool (b : bool)
| JArr (l : list Json)
| JObj (fields : list (string * Json)).
#[local] Set Elimination Schemes.

Definition JOpt (v : option string) : Json :=
  match v with
  | Some s => JStr s
  | None => JUndefined
  end.


Fixpoint assoc (k : string) (fields : list (string * Json)) : option Json :=
  match fields with
  | [] => None
  | (k', v) :: rest => if k =? k' then Some v else assoc k rest
  end.

(** [j.k] on an object literal *)
Definition field (k : string) (j : Json) : option Json :=
  match j with
  | JObj fields => assoc k fields
  | _ => None
  end.

(* ------------------------------------------------------------------ *)
(** ** Errors                                                           *)
(* ------------------------------------------------------------------ *)

(** The objects that are thrown: those made by [createError] carry a name
    and a message, the validation errors are plain objects that also carry
    a status and the list of the failed fields, each with the name of the
    field and the message of its check.  [expose] is [false] on every one of
    them and is left out. *)
Record HttpError : Type := mkHttpError {
  name : string;
  message : string;
  messages : list (string * string);
  statusCode : option nat
}.

Definition createError (n m : string) : HttpError :=
  {| name := n; message := m; messages := []; statusCode := None |}.

(** What the engine throws when a property of [null] or [undefined] is
    read. *)
Definition TypeError (m : string) : HttpError := createError "TypeError" m.

(* ------------------------------------------------------------------ *)
(** ** Documents and the store                                         *)
(* ------------------------------------------------------------------ *)

Module IUserDocument.
Record t : Type := mk {
  _id : nat;
  firstName : string;
  lastName : string;
  isUsernameSet : bool;
  username : string;
  email : string;
  isPasswordSet : bool;
  password : option string;
  verified : bool;
  refreshTokens : list string;
  apiKey : string;
  profileImageURL : option string
}.

Definition set_refreshTokens (l : list string) (u : t) : t :=
  {| _id := _id u; firstName := firstName u; lastName := lastName u;
     isUsernameSet := isUsernameSet u; username := username u;
     email := email u; isPasswordSet := isPasswordSet u;
     password := password u; verified := verified u;
     refreshTokens := l; apiKey := apiKey u;
     profileImageURL := profileImageURL u |}.
End IUserDocument.

Module ISocialDocument.
Record t : Type := mk {
  name : string;
  socialId : string;
  userId : nat
}.
End ISocialDocument.

Module ITodoDocument.
Record t : Type := mk {
  _id : string;
  username : string;
  name : string;
  dueDate : string;
  completed : bool
}.

Definition toJson (d : t) : Json :=
  JObj [("_id", JStr (_id d)); ("username", JStr (username d));
        ("name", JStr (name d)); ("dueDate", JStr (dueDate d));
        ("completed", JBool (completed d))].
End ITodoDocument.

(** The three collections, each in its natural (insertion) order, and the
    counter the user ids are drawn from. *)
Record Store : Type := mkStore {
  users : list IUserDocument.t;
  socials : list ISocialDocument.t;
  todos : list ITodoDocument.t;
  nextId : nat
}.

(* ------------------------------------------------------------------ *)
(** ** The monad of a handler body                                     *)
(* ------------------------------------------------------------------ *)

Definition M (A : Type) : Type := Store -> (HttpError + A) * Store.

Definition ret {A} (a : A) : M A := fun st => (inr a, st).

Definition bind {A B} (m : M A) (k : A -> M B) : M B :=
  fun st =>
    match m st with
    | (inr a, st') => k a st'
    | (inl e, st') => (inl e, st')
    end.

Definition throw {A} (e : HttpError) : M A := fun st => (inl e, st).

Definition gets {A} (f : Store -> A) : M A := fun st => (inr (f st), st).

Definition modify (f : Store -> Store) : M unit := fun st => (inr tt, f st).

(** An external call that returns or throws. *)
Definition lift {A} (r : HttpError + A) : M A := fun st => (r, st).

Declare Scope handler_scope.
Delimit Scope handler_scope with handler.
Notation "x <- c ;; k" := (bind c (fun x => k))
  (at level 61, c at next level, right associativity) : handler_scope.
Notation "c ;;; k" := (bind c (fun _ => k))
  (at level 61, right associativity) : handler_scope.
Local Open Scope handler_scope.

(* ------------------------------------------------------------------ *)
(** ** What the handlers call outside of the repository                *)
(* ------------------------------------------------------------------ *)

(** The identity claims a token carries. *)
Module Claims.
Record t : Type := mk {
  firstName : string;
  lastName : string;
  username : string;
  email : string
}.
End Claims.

(** The payload of a verified Google id token, at the types the handler
    casts its fields to. *)
Module TokenPayload.
Record t : Type := mk {
  given_name : string;
  family_name : string;
  sub : string;
  email : string;
  picture : option string
}.
End TokenPayload.

(** A token pair, as the signing primitive hands it out. *)
Module Tokens.
Record t : Type := mk {
  accessToken : string;
  refreshToken : string
}.
End Tokens.

(** The libraries and the helpers whose code is elsewhere: [jwt.verify] with
    the refresh secret, bcryptjs, the Google client, the [ObjectId]
    constructor, [createToken] and the [CustomValidator] checks.  A call that
    can throw returns a sum. *)
Class Externals : Type := {
  jwt_verify : string -> HttpError + Claims.t;
  compareSync : string -> option string -> HttpError + bool;
  hashSync : string -> string;
  verifyIdToken : string -> HttpError + TokenPayload.t;
  ObjectId : string -> HttpError + string;
  createToken : string -> string -> string -> string;
  CustomValidator_firstName : string -> option string;
  CustomValidator_username : string -> option string;
  CustomValidator_email : string -> option string;
  CustomValidator_password : string -> option string;
  CustomValidator_userIdentifier : string -> option string
}.

(* ------------------------------------------------------------------ *)
(** ** The mongoose models, as far as the handlers use them            *)
(* ------------------------------------------------------------------ *)

(** Replace the first element that satisfies [p]: [updateOne] changes one
    document, the first match. *)
Fixpoint update_first {A} (p : A -> bool) (f : A -> A) (l : list A) : list A :=
  match l with
  | [] => []
  | x :: rest => if p x then f x :: rest else x :: update_first p f rest
  end.

Module User.
Import IUserDocument.

(** Queries: [{ username }], [{ email }] and
    [{ $or: [{ username }, { email }] }]. *)
Definition by_username (x : string) (u : t) : bool := username u =? x.
Definition by_email (x : string) (u : t) : bool := email u =? x.
Definition by_username_or_email (x y : string) (u : t) : bool :=
  by_username x u || by_email y u.

Definition findOne (q : t -> bool) : M (option t) :=
  gets (fun st => find q (users st)).

(** [User.updateOne(q, { refreshTokens })] *)
Definition updateOne (q : t -> bool) (l : list string) : M unit :=
  modify (fun st =>
    {| users := update_first q (set_refreshTokens l) (users st);
       socials := socials st; todos := todos st; nextId := nextId st |}).

(** Modelled from the spec: the schema of the User model (models/user) is
    not part of the sources.  The data model says that username and email
    are globally unique and that the password is stored hashed, so [create]
    refuses a document whose username or email is already stored, and
    otherwise appends it, with its password hashed, under a new id. *)
Definition create {ext : Externals} (doc : nat -> t) : M t :=
  fun st =>
    let d := doc (nextId st) in
    let u := {| _id := _id d; firstName := firstName d;
                lastName := lastName d; isUsernameSet := isUsernameSet d;
                username := username d; email := email d;
                isPasswordSet := isPasswordSet d;
                password := option_map hashSync (password d);
                verified := verified d; refreshTokens := refreshTokens d;
                apiKey := apiKey d;
                profileImageURL := profileImageURL d |} in
    if existsb (by_username_or_email (username u) (email u)) (users st)
    then (inl (createError "MongoError" "E11000 duplicate key error"), st)
    else (inr u,
          {| users := users st ++ [u]; socials := socials st;
             todos := todos st; nextId := S (nextId st) |}).
End User.

Module Social.
Import ISocialDocument.

Definition findOne (n sid : string) : M (option t) :=
  gets (fun st =>
    find (fun s => (name s =? n) && (socialId s =? sid)) (socials st)).

Definition create (doc : t) : M t :=
  fun st =>
    (inr doc,
     {| users := users st; socials := socials st ++ [doc];
        todos := todos st; nextId := nextId st |}).
End Social.

Module Todo.
Import ITodoDocument.

(** [Todo.findOne({ _id })] *)
Definition findOne (id : string) : M (option t) :=
  gets (fun st => find (fun d => _id d =? id) (todos st)).

(** [Todo.find({ username, completed: false })] *)
Definition find_incomplete (x : string) : M (list t) :=
  gets (fun st =>
    filter (fun d => (username d =? x) && negb (completed d)) (todos st)).
End Todo.

(* ------------------------------------------------------------------ *)
(** ** Requests, responses and outcomes                                *)
(* ------------------------------------------------------------------ *)

Module Request.
Record t : Type := mk {
  signedCookies_rft : option string;
  cookies_rft : option string;
  headers_X_RFT : option string;
  headers_x_rft : option string;
  body_rft : option string;
  body_firstName : string;
  body_lastName : option string;
  body_username : string;
  body_email : string;
  body_password : string;
  body_userIdentifier : string;
  body_googleIdToken : string;
  params_username : string;
  params_todoId : string;
  (** the acting identity an earlier middleware attached, if any *)
  user : option Claims.t;
  (** what [req.csrfToken()] returns *)
  csrfToken : string
}.
End Request.

(** [res.cookie] and [res.clearCookie], in the order of the calls.  The
    options of a cookie are constants or come from [decideCookieOptions]
    and are left out. *)
Inductive CookieOp : Type :=
| cookie (n v : string)
| clearCookie (n : string).

Record Response : Type := mkResponse {
  status : nat;
  cookies : list CookieOp;
  json : Json
}.

(** How a middleware ends: it sends a response, hands over with [next()],
    hands an error over with [next(err)], or returns without doing any of
    these. *)
Inductive Outcome : Type :=
| Sent (r : Response)
| Next
| NextErr (e : HttpError)
| Pending.

(** [try { body } catch (err) { handler(err) }] *)
Definition try_catch (body : M Outcome) (handler : HttpError -> Outcome)
  : Store -> Outcome * Store :=
  fun st =>
    match body st with
    | (inr o, st') => (o, st')
    | (inl e, st') => (handler e, st')
    end.

(** The three cookies a new session sets. *)
Definition session_cookies (tokens : Tokens.t) (csrf : string)
  : list CookieOp :=
  [cookie "act" (Tokens.accessToken tokens);
   cookie "rft" (Tokens.refreshToken tokens);
   cookie "XSRF-TOKEN" csrf].

Definition tokens_json (tokens : Tokens.t) (csrf : string) : Json :=
  JObj [("accessToken", JStr (Tokens.accessToken tokens));
        ("refreshToken", JStr (Tokens.refreshToken tokens));
        ("csrfToken", JStr csrf)].

(** The loop over the [validations] object: one entry for each key whose
    check returned a message. *)
Definition errorMessages (validations : list (string * option string))
  : list (string * string) :=
  flat_map (fun kv =>
    match snd kv with
    | Some m => if truthy (Some m) then [(fst kv, m)] else []
    | None => []
    end) validations.

Definition ValidationError (m : string) (l : list (string * string))
  : HttpError :=
  {| name := "ValidationError"; message := m; messages := l;
     statusCode := Some 400 |}.

(* ------------------------------------------------------------------ *)
(** ** The token service                                               *)
(* ------------------------------------------------------------------ *)

Definition claims_of (u : IUserDocument.t) : Claims.t :=
  {| Claims.firstName := IUserDocument.firstName u;
     Claims.lastName := IUserDocument.lastName u;
     Claims.username := IUserDocument.username u;
     Claims.email := IUserDocument.email u |}.

(** Modelled from the spec: [generateUserTokens] (utils) is not part of the
    sources.  It is the token service's [issue(identityClaims, purpose)]:
    the signing and the claim set are the same for every purpose, and the
    purpose decides the bookkeeping.  For a sign-up the caller stores the
    refresh token itself (the user does not exist yet); for any other
    purpose, the omitted one included, the refresh token is appended to the
    allowlist of the user the claims name.  [minted] is the pair the signing
    primitive returns at this call. *)
Definition generateUserTokens (minted : Tokens.t) (claims : Claims.t)
    (purpose : option string) : M Tokens.t :=
  let signUp :=
    match purpose with Some p => p =? "signUp" | None => false end in
  if signUp then ret minted
  else
    owner <- User.findOne (User.by_username (Claims.username claims)) ;;
    match owner with
    | Some u =>
        User.updateOne (User.by_username (Claims.username claims))
          (IUserDocument.refreshTokens u ++ [Tokens.refreshToken minted]) ;;;
        ret minted
    | None => ret minted
    end.

Definition RefreshTokenError : HttpError :=
  createError "RefreshTokenError" "Invalid refresh token!".

(** [l.includes(t)] *)
Definition includes (t : string) (l : list string) : bool :=
  existsb (fun x => x =? t) l.

(** Modelled from the spec: [handleRefreshToken] (utils) is not part of the
    sources.  It is the token service's [rotate(presentedRefreshToken)]: it
    fails with RefreshTokenError when the token fails verification, when the
    identity it decodes to no longer exists, or when the token is not in
    that identity's allowlist; otherwise it removes the presented token
    from the allowlist, appends the newly minted refresh token and returns
    the new pair.  The removal is the one sign-out does.  [minted] is the
    pair the signing primitive returns at this call. *)
Definition handleRefreshToken {ext : Externals} (minted : Tokens.t)
    (presented : option string) : M Tokens.t :=
  match presented with
  | None => throw RefreshTokenError
  | Some t =>
      match jwt_verify t with
      | inl _ => throw RefreshTokenError
      | inr claims =>
          owner <- User.findOne (User.by_username (Claims.username claims)) ;;
          match owner with
          | None => throw RefreshTokenError
          | Some u =>
              if includes t (IUserDocument.refreshTokens u) then
                User.updateOne (User.by_username (Claims.username claims))
                  (filter (fun x => negb (x =? t))
                          (IUserDocument.refreshTokens u)
                   ++ [Tokens.refreshToken minted]) ;;;
                ret minted
              else throw RefreshTokenError
          end
      end
  end.

(* ------------------------------------------------------------------ *)
(** ** AuthController                                                  *)
(* ------------------------------------------------------------------ *)

Definition BadRequestError : HttpError :=
  createError "BadRequestError" "Wrong username or password!".

Definition username_taken : HttpError :=
  createError "AlreadyExistsError" "Username isn't available.".

Definition email_taken : HttpError :=
  createError "AlreadyExistsError" "Email isn't available.".

Definition NotFoundError : HttpError :=
  createError "NotFoundError" "User not found, please sign up first!".

Module AuthController.
Section Controller.
Context {ext : Externals}.

(** The [catch] of [refreshToken]: a RefreshTokenError is handed over as an
    AuthorizationError with the same message, any other error as it is. *)
Definition refreshToken_catch (err : HttpError) : Outcome :=
  if name err =? "RefreshTokenError"
  then NextErr (createError "AuthorizationError" (message err))
  else NextErr err.

Definition refreshToken (minted : Tokens.t) (req : Request.t)
  : Store -> Outcome * Store :=
  try_catch
    (let refreshToken :=
       js_or (js_or (Request.signedCookies_rft req) (Request.cookies_rft req))
             (Request.body_rft req) in
     newTokens <- handleRefreshToken minted refreshToken ;;
     ret (Sent {| status := 200;
                  cookies := session_cookies newTokens (Request.csrfToken req);
                  json := JObj [("tokens",
                                 tokens_json newTokens (Request.csrfToken req));
                                ("message",
                                 JStr "Successfully refreshed token!")] |}))
    refreshToken_catch.

Definition signUp (minted : Tokens.t) (req : Request.t)
  : Store -> Outcome * Store :=
  try_catch
    (let firstName := Request.body_firstName req in
     let lastName :=
       match Request.body_lastName req with Some l => l | None => "" end in
     let username := Request.body_username req in
     let email := Request.body_email req in
     let password := Request.body_password req in
     let failed :=
       errorMessages
         [("firstName", CustomValidator_firstName firstName);
          ("username", CustomValidator_username username);
          ("email", CustomValidator_email email);
          ("password", CustomValidator_password password)] in
     if negb (length failed =? 0)%nat then
       throw (ValidationError
                "Failed to sign up, please correct user information!" failed)
     else
       existedUser <- User.findOne (User.by_username_or_email username email) ;;
       match existedUser with
       | Some existed =>
           if IUserDocument.username existed =? username then
             throw username_taken
           else if IUserDocument.email existed =? email then
             throw email_taken
           else ret Pending
       | None =>
           newUserTokens <-
             generateUserTokens minted
               {| Claims.firstName := firstName; Claims.lastName := lastName;
                  Claims.username := username; Claims.email := email |}
               (Some "signUp") ;;
           let newApiKey := createToken "apiKey" username email in
           User.create (fun id =>
             {| IUserDocument._id := id;
                IUserDocument.firstName := firstName;
                IUserDocument.lastName := lastName;
                IUserDocument.isUsernameSet := true;
                IUserDocument.username := username;
                IUserDocument.email := email;
                IUserDocument.isPasswordSet := true;
                IUserDocument.password := Some password;
                IUserDocument.verified := false;
                IUserDocument.refreshTokens :=
                  [Tokens.refreshToken newUserTokens];
                IUserDocument.apiKey := newApiKey;
                IUserDocument.profileImageURL := None |}) ;;;
           ret (Sent {| status := 201;
                        cookies :=
                          session_cookies newUserTokens (Request.csrfToken req);
                        json :=
                          JObj [("user",
                                 JObj [("firstName", JStr firstName);
                                       ("lastName", JStr lastName);
                                       ("isUsernameSet", JBool true);
                                       ("username", JStr username);
                                       ("email", JStr email);
                                       ("isPasswordSet", JBool true);
                                       ("verified", JBool false);
                                       ("apiKey", JStr newApiKey)]);
                                ("tokens",
                                 tokens_json newUserTokens
                                             (Request.csrfToken req));
                                ("message",
                                 JStr "Successfully signed up!")] |})
       end)
    NextErr.

Definition signIn (minted : Tokens.t) (req : Request.t)
  : Store -> Outcome * Store :=
  try_catch
    (let userIdentifier := Request.body_userIdentifier req in
     let password := Request.body_password req in
     let failed :=
       errorMessages
         [("userIdentifier", CustomValidator_userIdentifier userIdentifier);
          ("password", CustomValidator_password password)] in
     if negb (length failed =? 0)%nat then
       throw (ValidationError
                "Failed to sign in, please correct user information!" failed)
     else
       signInUser <-
         User.findOne (User.by_username_or_email userIdentifier
                                                 userIdentifier) ;;
       match signInUser with
       | None =>
           throw NotFoundError
       | Some found =>
           tokens <- generateUserTokens minted (claims_of found) None ;;
           matches <-
             lift (compareSync password (IUserDocument.password found)) ;;
           if matches : bool then
             ret (Sent {| status := 200;
                          cookies :=
                            session_cookies tokens (Request.csrfToken req);
                          json :=
                            JObj [("user",
                                   JObj [("firstName",
                                          JStr (IUserDocument.firstName found));
                                         ("lastName",
                                          JStr (IUserDocument.lastName found));
                                         ("username",
                                          JStr (IUserDocument.username found));
                                         ("email",
                                          JStr (IUserDocument.email found));
                                         ("apiKey",
                                          JStr (IUserDocument.apiKey found))]);
                                  ("message",
                                   JStr "Successfully signed in!");
                                  ("tokens",
                                   tokens_json tokens
                                               (Request.csrfToken req))] |})
           else
             throw BadRequestError
       end)
    NextErr.

Definition googleSignIn (minted : Tokens.t) (req : Request.t)
  : Store -> Outcome * Store :=
  try_catch
    (let googleIdToken := Request.body_googleIdToken req in
     googleAccountPayload <- lift (verifyIdToken googleIdToken) ;;
     let firstName := TokenPayload.given_name googleAccountPayload in
     let lastName := TokenPayload.family_name googleAccountPayload in
     let username := TokenPayload.sub googleAccountPayload in
     let email := TokenPayload.email googleAccountPayload in
     let profileImageURL := TokenPayload.picture googleAccountPayload in
     let googleId := TokenPayload.sub googleAccountPayload in
     let claims :=
       {| Claims.firstName := firstName; Claims.lastName := lastName;
          Claims.username := username; Claims.email := email |} in
     existingUser <-
       User.findOne (User.by_email (TokenPayload.email googleAccountPayload)) ;;
     existingSocial <- Social.findOne "google" googleId ;;
     match existingUser with
     | None =>
         newUserTokens <- generateUserTokens minted claims (Some "signUp") ;;
         let newApiKey := createToken "apiKey" username email in
         newUser <-
           User.create (fun id =>
             {| IUserDocument._id := id;
                IUserDocument.firstName := firstName;
                IUserDocument.lastName := lastName;
                IUserDocument.isUsernameSet := true;
                IUserDocument.username := username;
                IUserDocument.email := email;
                IUserDocument.isPasswordSet := false;
                IUserDocument.password := None;
                IUserDocument.verified := false;
                IUserDocument.refreshTokens :=
                  [Tokens.refreshToken newUserTokens];
                IUserDocument.apiKey := newApiKey;
                IUserDocument.profileImageURL := profileImageURL |}) ;;
         Social.create
           {| ISocialDocument.name := "google";
              ISocialDocument.socialId := googleId;
              ISocialDocument.userId := IUserDocument._id newUser |} ;;;
         ret (Sent {| status := 201;
                      cookies :=
                        session_cookies newUserTokens (Request.csrfToken req);
                      json :=
                        JObj [("user",
                               JObj [("firstName", JStr firstName);
                                     ("lastName", JStr lastName);
                                     ("isUsernameSet", JBool true);
                                     ("username", JStr username);
                                     ("email", JStr email);
                                     ("isPasswordSet", JBool false);
                                     ("verified", JBool false);
                                     ("apiKey", JStr newApiKey);
                                     ("profileImageURL",
                                      JOpt profileImageURL)]);
                              ("tokens",
                               tokens_json newUserTokens
                                           (Request.csrfToken req));
                              ("message", JStr "Successfully signed up!")] |})
     | Some existing =>
         match existingSocial with
         | None =>
             Social.create
               {| ISocialDocument.name := "google";
                  ISocialDocument.socialId := googleId;
                  ISocialDocument.userId := IUserDocument._id existing |} ;;;
             ret tt
         | Some _ => ret tt
         end ;;;
         tokens <- generateUserTokens minted claims None ;;
         ret (Sent {| status := 200;
                      cookies := session_cookies tokens (Request.csrfToken req);
                      json :=
                        JObj [("user",
                               JObj [("firstName", JStr firstName);
                                     ("lastName", JStr lastName);
                                     ("isUsernameSet",
                                      JBool (IUserDocument.isUsernameSet
                                               existing));
                                     ("username", JStr username);
                                     ("email", JStr email);
                                     ("isPasswordSet",
                                      JBool (IUserDocument.isPasswordSet
                                               existing));
                                     ("verified",
                                      JBool (IUserDocument.verified existing));
                                     ("apiKey",
                                      JStr (IUserDocument.apiKey existing));
                                     ("profileImageURL",
                                      JOpt profileImageURL)]);
                              ("message", JStr "Successfully signed in!");
                              ("tokens",
                               tokens_json tokens (Request.csrfToken req))] |})
     end)
    NextErr.

(** The refresh token of a sign-out, from the first carrier that holds a
    truthy one. *)
Definition receivedRefreshToken (req : Request.t) : option string :=
  js_or (js_or (js_or (js_or (Request.signedCookies_rft req)
                             (Request.cookies_rft req))
                      (Request.headers_X_RFT req))
               (Request.headers_x_rft req))
        (Request.body_rft req).

Definition signed_out (cleared : list CookieOp) : Outcome :=
  Sent {| status := 200; cookies := cleared;
          json := JObj [("message", JStr "Successfully signed out!")] |}.

Definition signOut (req : Request.t) : Store -> Outcome * Store :=
  try_catch
    (if negb (truthy (receivedRefreshToken req)) then
       ret (signed_out [clearCookie "rft"; clearCookie "act";
                        clearCookie "_csrf"; clearCookie "XSRF-TOKEN"])
     else
       let received :=
         match receivedRefreshToken req with Some t => t | None => "" end in
       verified <- lift (jwt_verify received) ;;
       let username := Claims.username verified in
       foundUser <- User.findOne (User.by_username username) ;;
       match foundUser with
       | None =>
           throw (TypeError "Cannot read property 'refreshTokens' of null")
       | Some found =>
           let updatedRefreshTokens :=
             filter (fun refreshToken => negb (refreshToken =? received))
                    (IUserDocument.refreshTokens found) in
           User.updateOne (User.by_username username) updatedRefreshTokens ;;;
           ret (signed_out [clearCookie "act"; clearCookie "rft";
                            clearCookie "_csrf"; clearCookie "XSRF-TOKEN"])
       end)
    NextErr.

Definition sync (req : Request.t) : Store -> Outcome * Store :=
  try_catch
    (match Request.user req with
     | None => throw (TypeError "Cannot destructure property 'username'")
     | Some acting =>
         let username := Claims.username acting in
         found <- User.findOne (User.by_username username) ;;
         match found with
         | None => throw (TypeError "Cannot destructure property 'firstName'")
         | Some u =>
             todos <- Todo.find_incomplete username ;;
             ret (Sent {| status := 200;
                          cookies := [];
                          json :=
                            JObj [("user",
                                   JObj [("firstName",
                                          JStr (IUserDocument.firstName u));
                                         ("lastName",
                                          JStr (IUserDocument.lastName u));
                                         ("isUsernameSet",
                                          JBool
                                            (IUserDocument.isUsernameSet u));
                                         ("username", JStr username);
                                         ("email",
                                          JStr (IUserDocument.email u));
                                         ("isPasswordSet",
                                          JBool
                                            (IUserDocument.isPasswordSet u));
                                         ("verified",
                                          JBool (IUserDocument.verified u));
                                         ("apiKey",
                                          JStr (IUserDocument.apiKey u))]);
                                  ("todos",
                                   JArr (map ITodoDocument.toJson todos));
                                  ("message", JStr "Successfully synced!")] |})
         end
     end)
    NextErr.

End Controller.
End AuthController.

(* ------------------------------------------------------------------ *)
(** ** Authorize                                                       *)
(* ------------------------------------------------------------------ *)

Module Authorize.
Section Gates.
Context {ext : Externals}.

Definition authorizeUser (req : Request.t) : Store -> Outcome * Store :=
  try_catch
    (let username := Request.params_username req in
     foundUser <- User.findOne (User.by_username username) ;;
     match foundUser with
     | None =>
         throw (createError "AuthorizationError" "You are unauthorized!")
     | Some _ => ret Next
     end)
    NextErr.

Definition authorizeTodo (req : Request.t) : Store -> Outcome * Store :=
  try_catch
    (let username := Request.params_username req in
     let todoId := Request.params_todoId req in
     id <- lift (ObjectId todoId) ;;
     foundTodo <- Todo.findOne id ;;
     match foundTodo with
     | None => throw (TypeError "Cannot read property 'username' of null")
     | Some found =>
         if negb (ITodoDocument.username found =? username) then
           throw (createError "AuthorizationError"
                              "You are not authorized to do this!")
         else ret Next
     end)
    NextErr.

End Gates.
End Authorize.

(* ------------------------------------------------------------------ *)
(** ** Vocabulary of the properties                                    *)
(* ------------------------------------------------------------------ *)

Section Vocabulary.
Context {ext : Externals}.

(** The body of a sign-in passes the field checks. *)
Definition signIn_valid (req : Request.t) : Prop :=
  errorMessages
    [("userIdentifier",
      CustomValidator_userIdentifier (Request.body_userIdentifier req));
     ("password", CustomValidator_password (Request.body_password req))]
  = [].

(** The body of a sign-up passes the field checks. *)
Definition signUp_valid (req : Request.t) : Prop :=
  errorMessages
    [("firstName", CustomValidator_firstName (Request.body_firstName req));
     ("username", CustomValidator_username (Request.body_username req));
     ("email", CustomValidator_email (Request.body_email req));
     ("password", CustomValidator_password (Request.body_password req))]
  = [].


(** The link of a Google subject id to a user, and the query that finds
    the links of a subject id. *)
Definition googleLink (sub : string) (u : IUserDocument.t)
  : ISocialDocument.t :=
  {| ISocialDocument.name := "google"; ISocialDocument.socialId := sub;
     ISocialDocument.userId := IUserDocument._id u |}.

Definition googleLinked (sub : string) (s : ISocialDocument.t) : bool :=
  (ISocialDocument.name s =? "google") && (ISocialDocument.socialId s =? sub).


End Vocabulary.



(** A user document without its secrets: the password hash and the
    allowlist are blanked, the profile stays. *)
Definition without_secrets (u : IUserDocument.t) : IUserDocument.t :=
  {| IUserDocument._id := IUserDocument._id u;
     IUserDocument.firstName := IUserDocument.firstName u;
     IUserDocument.lastName := IUserDocument.lastName u;
     IUserDocument.isUsernameSet := IUserDocument.isUsernameSet u;
     IUserDocument.username := IUserDocument.username u;
     IUserDocument.email := IUserDocument.email u;
     IUserDocument.isPasswordSet := IUserDocument.isPasswordSet u;
     IUserDocument.password := None;
     IUserDocument.verified := IUserDocument.verified u;
     IUserDocument.refreshTokens := [];
     IUserDocument.apiKey := IUserDocument.apiKey u;
     IUserDocument.profileImageURL := IUserDocument.profileImageURL u |}.


(* ------------------------------------------------------------------ *)
(** ** A concrete world                                                *)
(* ------------------------------------------------------------------ *)

(** One instance of the outside world and a few stores and requests, on
    which the handlers are run. *)
Module Demo.

Definition johnClaims : Claims.t :=
  {| Claims.firstName := "John"; Claims.lastName := "Doe";
     Claims.username := "johndoe"; Claims.email := "john@doe.com" |}.

Definition required (s : string) : option string :=
  if s =? "" then Some "This field is required!" else None.

Definition world : Externals :=
  {| jwt_verify := fun t =>
       if (t =? "rft-john-1") || (t =? "rft-john-2") || (t =? "rft-john-3")
       then inr johnClaims
       else if t =? "rft-john-expired"
       then inl (createError "TokenExpiredError" "jwt expired")
       else inl (createError "JsonWebTokenError" "jwt malformed");
     compareSync := fun s hash =>
       match hash with
       | Some h => inr (h =? ("bcrypt:" ++ s)%string)
       | None =>
           inl (createError "Error" "Illegal arguments: string, undefined")
       end;
     hashSync := fun s => ("bcrypt:" ++ s)%string;
     verifyIdToken := fun t =>
       if t =? "google-id-token"
       then inr {| TokenPayload.given_name := "Jane";
                   TokenPayload.family_name := "Roe";
                   TokenPayload.sub := "110169484474386276334";
                   TokenPayload.email := "jane@roe.com";
                   TokenPayload.picture := Some "https://lh3/jane.png" |}
       else inl (createError "Error" "Wrong number of segments in token");
     ObjectId := fun s =>
       if (String.length s =? 24)%nat then inr s
       else inl (createError "TypeError"
                   "Argument passed in must be a string of 24 hex characters");
     createToken := fun purpose username email =>
       (purpose ++ ":" ++ username ++ ":" ++ email)%string;
     CustomValidator_firstName := required;
     CustomValidator_username := required;
     CustomValidator_email := required;
     CustomValidator_password := required;
     CustomValidator_userIdentifier := required |}.

Definition john : IUserDocument.t :=
  {| IUserDocument._id := 0;
     IUserDocument.firstName := "John";
     IUserDocument.lastName := "Doe";
     IUserDocument.isUsernameSet := true;
     IUserDocument.username := "johndoe";
     IUserDocument.email := "john@doe.com";
     IUserDocument.isPasswordSet := true;
     IUserDocument.password := Some "bcrypt:johndoe";
     IUserDocument.verified := false;
     IUserDocument.refreshTokens := ["rft-john-1"; "rft-john-2"];
     IUserDocument.apiKey := "apiKey:johndoe:john@doe.com";
     IUserDocument.profileImageURL := None |}.

Definition bob : IUserDocument.t :=
  {| IUserDocument._id := 1;
     IUserDocument.firstName := "Bob";
     IUserDocument.lastName := "";
     IUserDocument.isUsernameSet := true;
     IUserDocument.username := "bob";
     IUserDocument.email := "bob@builder.com";
     IUserDocument.isPasswordSet := true;
     IUserDocument.password := Some "bcrypt:bobbob";
     IUserDocument.verified := false;
     IUserDocument.refreshTokens := ["rft-bob-1"];
     IUserDocument.apiKey := "apiKey:bob:bob@builder.com";
     IUserDocument.profileImageURL := None |}.

Definition johnsTodo : ITodoDocument.t :=
  {| ITodoDocument._id := "5f1d7f3e2c6d4b0017a1b2c3";
     ITodoDocument.username := "johndoe";
     ITodoDocument.name := "Create Client using Vue.js";
     ITodoDocument.dueDate := "2020-08-01T00:00:00.000Z";
     ITodoDocument.completed := false |}.

Definition store : Store :=
  {| users := [john; bob]; socials := []; todos := [johnsTodo];
     nextId := 2 |}.

Definition minted : Tokens.t :=
  {| Tokens.accessToken := "act-new"; Tokens.refreshToken := "rft-john-3" |}.

(** The same users, stored in the other order. *)
Definition bobFirst : Store :=
  {| users := [bob; john]; socials := []; todos := [johnsTodo];
     nextId := 2 |}.

(** Requests that fill what their route reads. *)
Definition with_rft (t : string) : Request.t :=
  {| Request.signedCookies_rft := Some t; Request.cookies_rft := None;
     Request.headers_X_RFT := None; Request.headers_x_rft := None;
     Request.body_rft := None; Request.body_firstName := "";
     Request.body_lastName := None; Request.body_username := "";
     Request.body_email := ""; Request.body_password := "";
     Request.body_userIdentifier := ""; Request.body_googleIdToken := "";
     Request.params_username := ""; Request.params_todoId := "";
     Request.user := None; Request.csrfToken := "csrf" |}.

Definition signInRequest (userIdentifier password : string) : Request.t :=
  {| Request.signedCookies_rft := None; Request.cookies_rft := None;
     Request.headers_X_RFT := None; Request.headers_x_rft := None;
     Request.body_rft := None; Request.body_firstName := "";
     Request.body_lastName := None; Request.body_username := "";
     Request.body_email := ""; Request.body_password := password;
     Request.body_userIdentifier := userIdentifier;
     Request.body_googleIdToken := "";
     Request.params_username := ""; Request.params_todoId := "";
     Request.user := None; Request.csrfToken := "csrf" |}.

Definition signUpRequest (firstName username email password : string)
  : Request.t :=
  {| Request.signedCookies_rft := None; Request.cookies_rft := None;
     Request.headers_X_RFT := None; Request.headers_x_rft := None;
     Request.body_rft := None; Request.body_firstName := firstName;
     Request.body_lastName := None; Request.body_username := username;
     Request.body_email := email; Request.body_password := password;
     Request.body_userIdentifier := ""; Request.body_googleIdToken := "";
     Request.params_username := ""; Request.params_todoId := "";
     Request.user := None; Request.csrfToken := "csrf" |}.

Definition googleRequest (idToken : string) : Request.t :=
  {| Request.signedCookies_rft := None; Request.cookies_rft := None;
     Request.headers_X_RFT := None; Request.headers_x_rft := None;
     Request.body_rft := None; Request.body_firstName := "";
     Request.body_lastName := None; Request.body_username := "";
     Request.body_email := ""; Request.body_password := "";
     Request.body_userIdentifier := "";
     Request.body_googleIdToken := idToken;
     Request.params_username := ""; Request.params_todoId := "";
     Request.user := None; Request.csrfToken := "csrf" |}.

(** A request on a route under [/:username/todos/:todoId], made by
    [acting]. *)
Definition routed (acting : option Claims.t) (username todoId : string)
  : Request.t :=
  {| Request.signedCookies_rft := None; Request.cookies_rft := None;
     Request.headers_X_RFT := None; Request.headers_x_rft := None;
     Request.body_rft := None; Request.body_firstName := "";
     Request.body_lastName := None; Request.body_username := "";
     Request.body_email := ""; Request.body_password := "";
     Request.body_userIdentifier := ""; Request.body_googleIdToken := "";
     Request.params_username := username; Request.params_todoId := todoId;
     Request.user := acting; Request.csrfToken := "csrf" |}.

(** A request that carries refresh tokens on the five carriers. *)
Definition carrying (signed plain upper lower body : option string)
  : Request.t :=
  {| Request.signedCookies_rft := signed; Request.cookies_rft := plain;
     Request.headers_X_RFT := upper; Request.headers_x_rft := lower;
     Request.body_rft := body; Request.body_firstName := "";
     Request.body_lastName := None; Request.body_username := "";
     Request.body_email := ""; Request.body_password := "";
     Request.body_userIdentifier := ""; Request.body_googleIdToken := "";
     Request.params_username := ""; Request.params_todoId := "";
     Request.user := None; Request.csrfToken := "csrf" |}.

(** Jane, who signed up with a password and has no Google link yet. *)
Definition jane : IUserDocument.t :=
  {| IUserDocument._id := 2;
     IUserDocument.firstName := "Jane";
     IUserDocument.lastName := "Roe";
     IUserDocument.isUsernameSet := true;
     IUserDocument.username := "janeroe";
     IUserDocument.email := "jane@roe.com";
     IUserDocument.isPasswordSet := true;
     IUserDocument.password := Some "bcrypt:janeroe";
     IUserDocument.verified := true;
     IUserDocument.refreshTokens := [];
     IUserDocument.apiKey := "apiKey:janeroe:jane@roe.com";
     IUserDocument.profileImageURL := None |}.

Definition bobsTodo : ITodoDocument.t :=
  {| ITodoDocument._id := "5f1d7f3e2c6d4b0017a1b2c4";
     ITodoDocument.username := "bob";
     ITodoDocument.name := "Install MySQL";
     ITodoDocument.dueDate := "2020-08-02T00:00:00.000Z";
     ITodoDocument.completed := false |}.

Definition johnsDoneTodo : ITodoDocument.t :=
  {| ITodoDocument._id := "5f1d7f3e2c6d4b0017a1b2c5";
     ITodoDocument.username := "johndoe";
     ITodoDocument.name := "Write the tests";
     ITodoDocument.dueDate := "2020-07-01T00:00:00.000Z";
     ITodoDocument.completed := true |}.

Definition withJane : Store :=
  {| users := [john; bob; jane]; socials := [];
     todos := [johnsTodo; bobsTodo; johnsDoneTodo]; nextId := 3 |}.

End Demo.

(* ------------------------------------------------------------------ *)
(** ** Lists and the store                                             *)
(* ------------------------------------------------------------------ *)

Lemma find_update_first {A} (p : A -> bool) (f : A -> A) (l : list A) (a : A) :
  (forall x, p (f x) = p x) ->
  find p l = Some a ->
  find p (update_first p f l) = Some (f a).
Proof.
  intros Hp. induction l as [|x rest IH]; simpl; [discriminate|].
  destruct (p x) eqn:Hx; simpl.
  - intros [= ->]. now rewrite Hp, Hx.
  - rewrite Hx. exact IH.
Qed.

(** [updateOne] rewrites the document [findOne] returns and no other. *)
Lemma update_first_split {A} (p : A -> bool) (f : A -> A) (l : list A) (a : A) :
  find p l = Some a ->
  exists before after,
    l = before ++ a :: after /\
    update_first p f l = before ++ f a :: after /\
    forallb (fun x => negb (p x)) before = true.
Proof.
  induction l as [|x rest IH]; simpl; [discriminate|].
  destruct (p x) eqn:Hx.
  - intros [= ->]. now exists [], rest.
  - intros Hfind. destruct (IH Hfind) as (before & after & -> & -> & Hbefore).
    exists (x :: before), after. simpl. now rewrite Hx.
Qed.

Lemma by_username_set_refreshTokens (x : string) (l : list string)
    (u : IUserDocument.t) :
  User.by_username x (IUserDocument.set_refreshTokens l u)
  = User.by_username x u.
Proof. reflexivity. Qed.

(** [updateOne] with [{ refreshTokens }] writes that field and no other. *)
Lemma set_refreshTokens_frame (l : list string) (u : IUserDocument.t) :
  IUserDocument.refreshTokens (IUserDocument.set_refreshTokens l u) = l /\
  without_secrets (IUserDocument.set_refreshTokens l u) = without_secrets u /\
  IUserDocument.password (IUserDocument.set_refreshTokens l u)
  = IUserDocument.password u.
Proof. repeat split. Qed.

Lemma includes_In (t : string) (l : list string) :
  includes t l = true <-> In t l.
Proof.
  unfold includes. rewrite existsb_exists. split.
  - intros (x & Hin & Heq). apply String.eqb_eq in Heq. now subst.
  - intros Hin. exists t. split; [exact Hin | apply String.eqb_refl].
Qed.

(** The filter of sign-out is the removal of every occurrence. *)
Lemma filter_neq_remove (t : string) (l : list string) :
  filter (fun x => negb (x =? t)) l = remove string_dec t l.
Proof.
  induction l as [|x rest IH]; simpl; [reflexivity|].
  destruct (string_dec t x) as [->|Hneq].
  - now rewrite String.eqb_refl.
  - destruct (String.eqb_spec x t) as [->|_]; [contradiction|].
    simpl. now rewrite IH.
Qed.

Lemma includes_rotated (t fresh : string) (l : list string) :
  fresh <> t ->
  includes t (filter (fun x => negb (x =? t)) l ++ [fresh]) = false.
Proof.
  intros Hfresh. apply not_true_is_false. rewrite includes_In, in_app_iff.
  intros [Hin | [Heq | []]].
  - apply filter_In in Hin. destruct Hin as [_ Hneq].
    now rewrite String.eqb_refl in Hneq.
  - contradiction.
Qed.

(* ------------------------------------------------------------------ *)
(** ** Rotation                                                        *)
(* ------------------------------------------------------------------ *)

Section Rotation.
Context {ext : Externals}.

(** What a successful rotation is: the token verifies, its owner is stored
    and holds it, and the owner's allowlist loses the token and gains the
    minted one. *)
Lemma handleRefreshToken_success (minted : Tokens.t) (t : string)
    (st st' : Store) (pair : Tokens.t) :
  handleRefreshToken minted (Some t) st = (inr pair, st') ->
  exists claims u,
    jwt_verify t = inr claims /\
    find (User.by_username (Claims.username claims)) (users st) = Some u /\
    In t (IUserDocument.refreshTokens u) /\
    pair = minted /\
    find (User.by_username (Claims.username claims)) (users st')
    = Some (IUserDocument.set_refreshTokens
              (remove string_dec t (IUserDocument.refreshTokens u)
               ++ [Tokens.refreshToken minted]) u).
Proof.
  unfold handleRefreshToken, bind, throw, ret, User.findOne, User.updateOne,
    gets, modify.
  destruct (jwt_verify t) as [e|claims]; [discriminate|].
  destruct (find _ (users st)) as [u|] eqn:Hfind; [|discriminate].
  destruct (includes t (IUserDocument.refreshTokens u)) eqn:Hin;
    [|discriminate].
  intros [= <- <-]. exists claims, u. simpl.
  repeat split; trivial.
  - now apply includes_In.
  - rewrite <- filter_neq_remove.
    now apply find_update_first.
Qed.

(** Without a new token the allowlist is where it was: a rotation that
    mints the presented token again leaves it usable. *)
Lemma rotate_same_token_again (minted : Tokens.t) (t : string)
    (st st' : Store) (pair : Tokens.t) :
  handleRefreshToken minted (Some t) st = (inr pair, st') ->
  Tokens.refreshToken minted = t ->
  exists st'', handleRefreshToken minted (Some t) st' = (inr minted, st'').
Proof.
  intros Hfirst Hsame.
  destruct (handleRefreshToken_success _ _ _ _ _ Hfirst)
    as (claims & u & Hverify & _ & _ & _ & Hfind').
  unfold handleRefreshToken, bind, throw, ret, User.findOne, User.updateOne,
    gets, modify.
  rewrite Hverify, Hfind'. simpl.
  replace (includes t _) with true.
  - eexists. reflexivity.
  - symmetry. apply includes_In, in_or_app. right. left. exact Hsame.
Qed.

(** The controller hands a failed rotation over as an AuthorizationError
    with the message of the RefreshTokenError. *)
Lemma refreshToken_rejected (minted : Tokens.t) (req : Request.t)
    (st st' : Store) :
  handleRefreshToken minted
    (js_or (js_or (Request.signedCookies_rft req) (Request.cookies_rft req))
           (Request.body_rft req)) st
  = (inl RefreshTokenError, st') ->
  AuthController.refreshToken minted req st
  = (NextErr (createError "AuthorizationError" (message RefreshTokenError)),
     st').
Proof.
  intros Hrotate.
  unfold AuthController.refreshToken, try_catch, bind.
  now rewrite Hrotate.
Qed.

(** The controller answers a rotation that succeeded with the new pair, in
    the cookies and in the payload. *)
Lemma refreshToken_rotated (minted : Tokens.t) (req : Request.t)
    (st st' : Store) (pair : Tokens.t) :
  handleRefreshToken minted
    (js_or (js_or (Request.signedCookies_rft req) (Request.cookies_rft req))
           (Request.body_rft req)) st
  = (inr pair, st') ->
  AuthController.refreshToken minted req st
  = (Sent {| status := 200;
             cookies := session_cookies pair (Request.csrfToken req);
             json := JObj [("tokens",
                            tokens_json pair (Request.csrfToken req));
                           ("message",
                            JStr "Successfully refreshed token!")] |},
     st').
Proof.
  intros Hrotate.
  unfold AuthController.refreshToken, try_catch, bind, ret.
  now rewrite Hrotate.
Qed.

(** C1, with the condition it needs. When [rotate] succeeds on the refresh
    token [t], removing [t] from the owner's allowlist and appending the
    newly minted refresh token, and the minted token is not [t] itself, a
    second [rotate] that presents [t] to the resulting store fails with
    RefreshTokenError, whatever would be minted then.  For a request that
    carries [t], the refresh handler answers the first time with the new
    pair and hands an AuthorizationError to [next] the second time. *)
Theorem rotate_single_use (minted again : Tokens.t) (t : string)
    (st st' : Store) (pair : Tokens.t) (req : Request.t) :
  handleRefreshToken minted (Some t) st = (inr pair, st') ->
  Tokens.refreshToken minted <> t ->
  js_or (js_or (Request.signedCookies_rft req) (Request.cookies_rft req))
        (Request.body_rft req) = Some t ->
  (exists claims u,
     jwt_verify t = inr claims /\
     find (User.by_username (Claims.username claims)) (users st) = Some u /\
     find (User.by_username (Claims.username claims)) (users st')
     = Some (IUserDocument.set_refreshTokens
               (remove string_dec t (IUserDocument.refreshTokens u)
                ++ [Tokens.refreshToken minted]) u)) /\
  handleRefreshToken again (Some t) st' = (inl RefreshTokenError, st') /\
  AuthController.refreshToken minted req st
  = (Sent {| status := 200;
             cookies := session_cookies minted (Request.csrfToken req);
             json := JObj [("tokens",
                            tokens_json minted (Request.csrfToken req));
                           ("message",
                            JStr "Successfully refreshed token!")] |},
     st') /\
  AuthController.refreshToken again req st'
  = (NextErr (createError "AuthorizationError" "Invalid refresh token!"),
     st').
Proof.
  intros Hfirst Hfresh Hcarried.
  destruct (handleRefreshToken_success _ _ _ _ _ Hfirst)
    as (claims & u & Hverify & Hfind & _ & -> & Hfind').
  assert (Hsecond : handleRefreshToken again (Some t) st'
                    = (inl RefreshTokenError, st')).
  { unfold handleRefreshToken, bind, throw, User.findOne, gets.
    rewrite Hverify, Hfind'. simpl.
    rewrite <- filter_neq_remove, includes_rotated by exact Hfresh.
    reflexivity. }
  split; [now exists claims, u|]. split; [exact Hsecond|]. split.
  - apply refreshToken_rotated. now rewrite Hcarried.
  - apply refreshToken_rejected. now rewrite Hcarried.
Qed.

End Rotation.

(** C1, as stated, where the signing primitive returns the presented token
    again: the first rotation succeeds, the allowlist holds the token as
    before, and the second rotation of the same token succeeds as well. *)
Lemma rotate_replay_with_same_token :
  let same := {| Tokens.accessToken := "act-new";
                 Tokens.refreshToken := "rft-john-1" |} in
  let st' := snd (handleRefreshToken (ext := Demo.world) same
                    (Some "rft-john-1") Demo.store) in
  handleRefreshToken (ext := Demo.world) same (Some "rft-john-1") Demo.store
  = (inr same, st') /\
  In "rft-john-1"
     (flat_map IUserDocument.refreshTokens (users st')) /\
  fst (handleRefreshToken (ext := Demo.world) same (Some "rft-john-1") st')
  = inr same /\
  fst (handleRefreshToken (ext := Demo.world) same (Some "rft-john-1") st')
  <> inl RefreshTokenError.
Proof.
  repeat split.
  - simpl. tauto.
  - discriminate.
Qed.

Lemma rotate_single_use_witness :
  let st' :=
    snd (handleRefreshToken (ext := Demo.world) Demo.minted
           (Some "rft-john-1") Demo.store) in
  handleRefreshToken (ext := Demo.world) Demo.minted (Some "rft-john-1") st'
  = (inl RefreshTokenError, st') /\
  AuthController.refreshToken (ext := Demo.world) Demo.minted
    (Demo.with_rft "rft-john-1") st'
  = (NextErr (createError "AuthorizationError" "Invalid refresh token!"),
     st').
Proof.
  destruct (@rotate_single_use Demo.world Demo.minted Demo.minted
              "rft-john-1" Demo.store _ Demo.minted
              (Demo.with_rft "rft-john-1") eq_refl ltac:(discriminate)
              eq_refl)
    as (_ & Hsecond & _ & Hhandler).
  split; [exact Hsecond | exact Hhandler].
Defined.

(* ------------------------------------------------------------------ *)
(** ** Local sign-in                                                   *)
(* ------------------------------------------------------------------ *)

Section SignIn.
Context {ext : Externals}.

Lemma valid_no_failure (l : list (string * string)) :
  l = [] -> negb (length l =? 0)%nat = false.
Proof. now intros ->. Qed.

(** The bookkeeping of a token pair issued outside of a sign-up: the first
    user with the claims' username gets the refresh token appended. *)
Lemma generateUserTokens_appends (minted : Tokens.t) (claims : Claims.t)
    (st : Store) (owner : IUserDocument.t) :
  find (User.by_username (Claims.username claims)) (users st) = Some owner ->
  generateUserTokens minted claims None st
  = (inr minted,
     {| users :=
          update_first (User.by_username (Claims.username claims))
            (IUserDocument.set_refreshTokens
               (IUserDocument.refreshTokens owner
                ++ [Tokens.refreshToken minted]))
            (users st);
        socials := socials st; todos := todos st; nextId := nextId st |}).
Proof.
  intros Hfind.
  unfold generateUserTokens, bind, ret, User.findOne, User.updateOne, gets,
    modify.
  now rewrite Hfind.
Qed.

(** A user found by username or email has a username, so the lookup by that
    username finds somebody. *)
Lemma find_by_own_username (q : IUserDocument.t -> bool)
    (l : list IUserDocument.t) (u : IUserDocument.t) :
  find q l = Some u ->
  exists owner,
    find (User.by_username (IUserDocument.username u)) l = Some owner.
Proof.
  intros Hfind. apply find_some in Hfind. destruct Hfind as [Hin _].
  destruct (find (User.by_username (IUserDocument.username u)) l)
    as [owner|] eqn:Howner; [now exists owner|].
  apply (find_none _ _ Howner) in Hin.
  unfold User.by_username in Hin. now rewrite String.eqb_refl in Hin.
Qed.

(** Sign-in issues the token pair before it compares the password: on a
    mismatch the error is BadRequestError, and the store is the one the
    issuing left. *)
Lemma signIn_mismatch (minted : Tokens.t) (req : Request.t) (st : Store)
    (u : IUserDocument.t) :
  signIn_valid req ->
  find (User.by_username_or_email (Request.body_userIdentifier req)
                                  (Request.body_userIdentifier req))
       (users st) = Some u ->
  compareSync (Request.body_password req) (IUserDocument.password u)
  = inr false ->
  AuthController.signIn minted req st
  = (NextErr BadRequestError,
     snd (generateUserTokens minted (claims_of u) None st)).
Proof.
  intros Hvalid Hfind Hcompare.
  unfold AuthController.signIn, try_catch.
  rewrite (valid_no_failure _ Hvalid).
  unfold bind at 1. unfold User.findOne at 1, gets. rewrite Hfind.
  destruct (find_by_own_username _ _ _ Hfind) as (owner & Howner).
  unfold bind.
  rewrite (generateUserTokens_appends minted (claims_of u) st owner Howner).
  unfold lift. now rewrite Hcompare.
Qed.

(** So on a mismatch the allowlist of the user's username has grown by the
    minted refresh token. *)
Lemma signIn_mismatch_appends (minted : Tokens.t) (req : Request.t)
    (st : Store) (u : IUserDocument.t) :
  signIn_valid req ->
  find (User.by_username_or_email (Request.body_userIdentifier req)
                                  (Request.body_userIdentifier req))
       (users st) = Some u ->
  compareSync (Request.body_password req) (IUserDocument.password u)
  = inr false ->
  exists owner,
    find (User.by_username (IUserDocument.username u)) (users st)
    = Some owner /\
    find (User.by_username (IUserDocument.username u))
         (users (snd (AuthController.signIn minted req st)))
    = Some (IUserDocument.set_refreshTokens
              (IUserDocument.refreshTokens owner
               ++ [Tokens.refreshToken minted]) owner).
Proof.
  intros Hvalid Hfind Hcompare.
  rewrite (signIn_mismatch minted req st u Hvalid Hfind Hcompare).
  destruct (find_by_own_username _ _ _ Hfind) as (owner & Howner).
  exists owner. split; [exact Howner|].
  rewrite (generateUserTokens_appends minted (claims_of u) st owner Howner).
  simpl. now apply find_update_first.
Qed.

(** C6, as the code has it. A sign-in that passes the field checks fails
    with NotFoundError when its identifier is neither the username nor the
    email of a stored user, and with BadRequestError when it names a user
    and [compareSync] reports that the password does not match the stored
    hash; the BadRequestError is one fixed error with one generic message,
    whatever the request and the user. *)
Theorem signIn_failures (minted : Tokens.t) (req : Request.t) (st : Store) :
  signIn_valid req ->
  (find (User.by_username_or_email (Request.body_userIdentifier req)
                                   (Request.body_userIdentifier req))
        (users st) = None ->
   AuthController.signIn minted req st = (NextErr NotFoundError, st)) /\
  (forall u,
     find (User.by_username_or_email (Request.body_userIdentifier req)
                                     (Request.body_userIdentifier req))
          (users st) = Some u ->
     compareSync (Request.body_password req) (IUserDocument.password u)
     = inr false ->
     fst (AuthController.signIn minted req st)
     = NextErr (createError "BadRequestError" "Wrong username or password!")).
Proof.
  intros Hvalid. split.
  - intros Hfind. unfold AuthController.signIn, try_catch.
    rewrite (valid_no_failure _ Hvalid).
    unfold bind, User.findOne, gets. now rewrite Hfind.
  - intros u Hfind Hcompare.
    now rewrite (signIn_mismatch minted req st u Hvalid Hfind Hcompare).
Qed.

End SignIn.

Lemma signIn_failures_witness :
  (signIn_valid (ext := Demo.world) (Demo.signInRequest "doejohn" "doejohn") /\
   AuthController.signIn (ext := Demo.world) Demo.minted
     (Demo.signInRequest "doejohn" "doejohn") Demo.store
   = (NextErr NotFoundError, Demo.store)) /\
  (signIn_valid (ext := Demo.world) (Demo.signInRequest "johndoe" "doejohn") /\
   fst (AuthController.signIn (ext := Demo.world) Demo.minted
          (Demo.signInRequest "johndoe" "doejohn") Demo.store)
   = NextErr (createError "BadRequestError" "Wrong username or password!")).
Proof.
  split; (split; [reflexivity|]).
  - apply (@signIn_failures Demo.world Demo.minted
             (Demo.signInRequest "doejohn" "doejohn") Demo.store);
      reflexivity.
  - apply (proj2 (@signIn_failures Demo.world Demo.minted
                    (Demo.signInRequest "johndoe" "doejohn") Demo.store
                    eq_refl) Demo.john);
      reflexivity.
Defined.

(** C6, as stated, at two requests.  An identifier that nobody has, with an
    empty password: the field checks run first and the error is a
    ValidationError, not NotFoundError.  The email of a user that a Google
    sign-in created, who has no password hash, with any password:
    [compareSync] throws and its error is what reaches [next], not
    BadRequestError. *)
Lemma signIn_other_failures :
  let googled :=
    snd (AuthController.googleSignIn (ext := Demo.world) Demo.minted
           (Demo.googleRequest "google-id-token") Demo.store) in
  (find (User.by_username_or_email "doejohn" "doejohn") (users Demo.store)
   = None /\
   fst (AuthController.signIn (ext := Demo.world) Demo.minted
          (Demo.signInRequest "doejohn" "") Demo.store)
   = NextErr (ValidationError
                "Failed to sign in, please correct user information!"
                [("password", "This field is required!")]) /\
   fst (AuthController.signIn (ext := Demo.world) Demo.minted
          (Demo.signInRequest "doejohn" "") Demo.store)
   <> NextErr NotFoundError) /\
  ((exists u,
      find (User.by_username_or_email "jane@roe.com" "jane@roe.com")
           (users googled) = Some u /\
      IUserDocument.password u = None) /\
   fst (AuthController.signIn (ext := Demo.world) Demo.minted
          (Demo.signInRequest "jane@roe.com" "whatever") googled)
   = NextErr (createError "Error" "Illegal arguments: string, undefined") /\
   fst (AuthController.signIn (ext := Demo.world) Demo.minted
          (Demo.signInRequest "jane@roe.com" "whatever") googled)
   <> NextErr BadRequestError).
Proof.
  split.
  - split; [reflexivity|]. split; [reflexivity | discriminate].
  - split; [eexists; split; reflexivity|].
    split; [reflexivity | discriminate].
Qed.

(** C2. The sign-in of a stored user with a password that does not match:
    the answer is BadRequestError, but the token pair was issued before the
    comparison, and the minted refresh token is in the user's allowlist. *)
Theorem signIn_wrong_password_appends :
  AuthController.signIn (ext := Demo.world) Demo.minted
    (Demo.signInRequest "johndoe" "wrong") Demo.store
  = (NextErr BadRequestError,
     {| users :=
          [IUserDocument.set_refreshTokens
             ["rft-john-1"; "rft-john-2"; "rft-john-3"] Demo.john;
           Demo.bob];
        socials := socials Demo.store; todos := todos Demo.store;
        nextId := nextId Demo.store |}) /\
  snd (AuthController.signIn (ext := Demo.world) Demo.minted
         (Demo.signInRequest "johndoe" "wrong") Demo.store)
  <> Demo.store.
Proof. split; [reflexivity | discriminate]. Qed.

(* ------------------------------------------------------------------ *)
(** ** Sign-out                                                        *)
(* ------------------------------------------------------------------ *)

(** Removing [t] does not change how often another entry occurs. *)
Lemma count_occ_remove_other (t x : string) (l : list string) :
  x <> t ->
  count_occ string_dec (remove string_dec t l) x = count_occ string_dec l x.
Proof.
  intros Hx. induction l as [|y rest IH]; simpl; [reflexivity|].
  destruct (string_dec t y) as [->|Hty].
  - destruct (string_dec y x) as [->|_]; [contradiction | exact IH].
  - simpl. destruct (string_dec y x); now rewrite IH.
Qed.

Section SignOut.
Context {ext : Externals}.

Lemma truthy_nonempty (t : string) : t <> "" -> truthy (Some t) = true.
Proof.
  intros Hne. simpl. now destruct (String.eqb_spec t "").
Qed.

(** A sign-out with a token that does not verify ends in the [catch]: the
    error of [jwt.verify] is handed over and the store is not touched. *)
Lemma signOut_unverified (req : Request.t) (st : Store) (t : string)
    (e : HttpError) :
  AuthController.receivedRefreshToken req = Some t ->
  t <> "" ->
  jwt_verify t = inl e ->
  AuthController.signOut req st = (NextErr e, st).
Proof.
  intros Hreceived Hne Hverify.
  unfold AuthController.signOut, try_catch.
  rewrite Hreceived, (truthy_nonempty t Hne). simpl.
  unfold bind, lift. now rewrite Hverify.
Qed.

(** A sign-out with a token that verifies and whose owner is stored. *)
Lemma signOut_verified (req : Request.t) (st : Store) (t : string)
    (claims : Claims.t) (u : IUserDocument.t) :
  AuthController.receivedRefreshToken req = Some t ->
  t <> "" ->
  jwt_verify t = inr claims ->
  find (User.by_username (Claims.username claims)) (users st) = Some u ->
  AuthController.signOut req st
  = (AuthController.signed_out
       [clearCookie "act"; clearCookie "rft"; clearCookie "_csrf";
        clearCookie "XSRF-TOKEN"],
     {| users :=
          update_first (User.by_username (Claims.username claims))
            (IUserDocument.set_refreshTokens
               (remove string_dec t (IUserDocument.refreshTokens u)))
            (users st);
        socials := socials st; todos := todos st; nextId := nextId st |}).
Proof.
  intros Hreceived Hne Hverify Hfind.
  unfold AuthController.signOut, try_catch.
  rewrite Hreceived, (truthy_nonempty t Hne). simpl.
  unfold bind, lift, User.findOne, User.updateOne, gets, modify, ret.
  rewrite Hverify, Hfind, filter_neq_remove. reflexivity.
Qed.

(** C3, as the code has it. A sign-out that carries a refresh token answers
    200 when the token passes [jwt.verify] and the user it names is stored:
    then that token is revoked and the cookies are cleared.  The token is
    verified, not only decoded: when the verification fails, the error is
    handed to [next], nothing is revoked and no cookie is cleared. *)
Theorem signOut_requires_verified_token (req : Request.t) (st : Store)
    (t : string) :
  AuthController.receivedRefreshToken req = Some t ->
  t <> "" ->
  (forall e, jwt_verify t = inl e ->
     AuthController.signOut req st = (NextErr e, st)) /\
  (forall claims u,
     jwt_verify t = inr claims ->
     find (User.by_username (Claims.username claims)) (users st) = Some u ->
     (exists r,
        fst (AuthController.signOut req st) = Sent r /\
        status r = 200 /\
        cookies r = [clearCookie "act"; clearCookie "rft";
                     clearCookie "_csrf"; clearCookie "XSRF-TOKEN"]) /\
     find (User.by_username (Claims.username claims))
          (users (snd (AuthController.signOut req st)))
     = Some (IUserDocument.set_refreshTokens
               (remove string_dec t (IUserDocument.refreshTokens u)) u)).
Proof.
  intros Hreceived Hne. split.
  - intros e Hverify. now apply signOut_unverified with (t := t).
  - intros claims u Hverify Hfind.
    rewrite (signOut_verified req st t claims u Hreceived Hne Hverify Hfind).
    split.
    + eexists. repeat split.
    + simpl. now apply find_update_first.
Qed.

(** C8, as the code has it. Sign-out with a token that passes [jwt.verify]
    and names a stored user who holds it takes every entry equal to the
    presented token out of that user's allowlist and keeps the other entries
    as they were, in their order; the user's other fields, the other users
    and the other collections stay as they were. *)
Theorem signOut_revokes_exactly (req : Request.t) (st : Store) (t : string)
    (claims : Claims.t) (u : IUserDocument.t) :
  AuthController.receivedRefreshToken req = Some t ->
  t <> "" ->
  jwt_verify t = inr claims ->
  find (User.by_username (Claims.username claims)) (users st) = Some u ->
  In t (IUserDocument.refreshTokens u) ->
  let st' := snd (AuthController.signOut req st) in
  exists before after u',
    users st = before ++ u :: after /\
    users st' = before ++ u' :: after /\
    IUserDocument.refreshTokens u'
    = filter (fun x => negb (x =? t)) (IUserDocument.refreshTokens u) /\
    IUserDocument.refreshTokens u'
    = remove string_dec t (IUserDocument.refreshTokens u) /\
    ~ In t (IUserDocument.refreshTokens u') /\
    (forall x, x <> t ->
       count_occ string_dec (IUserDocument.refreshTokens u') x
       = count_occ string_dec (IUserDocument.refreshTokens u) x) /\
    without_secrets u' = without_secrets u /\
    IUserDocument.password u' = IUserDocument.password u /\
    socials st' = socials st /\ todos st' = todos st /\
    nextId st' = nextId st.
Proof.
  intros Hreceived Hne Hverify Hfind _ st'. subst st'.
  rewrite (signOut_verified req st t claims u Hreceived Hne Hverify Hfind).
  simpl.
  destruct (update_first_split (User.by_username (Claims.username claims))
              (IUserDocument.set_refreshTokens
                 (remove string_dec t (IUserDocument.refreshTokens u)))
              (users st) u Hfind)
    as (before & after & Hsplit & Hupdated & _).
  exists before, after,
    (IUserDocument.set_refreshTokens
       (remove string_dec t (IUserDocument.refreshTokens u)) u).
  simpl. repeat split; trivial.
  - symmetry. apply filter_neq_remove.
  - apply remove_In.
  - intros x Hx. now apply count_occ_remove_other.
Qed.

End SignOut.

(** C3, as stated, at a request that carries an expired token of a stored
    user: [jwt.verify] throws, the answer is not a 200 and the token stays
    in the allowlist. *)
Lemma signOut_expired_token_not_200 :
  truthy (AuthController.receivedRefreshToken
            (Demo.with_rft "rft-john-expired")) = true /\
  AuthController.signOut (ext := Demo.world)
    (Demo.with_rft "rft-john-expired") Demo.store
  = (NextErr (createError "TokenExpiredError" "jwt expired"), Demo.store) /\
  ~ (exists r,
       fst (AuthController.signOut (ext := Demo.world)
              (Demo.with_rft "rft-john-expired") Demo.store) = Sent r /\
       status r = 200).
Proof.
  split; [reflexivity|]. split; [reflexivity|].
  intros (r & Hsent & _). discriminate Hsent.
Qed.

Lemma signOut_requires_verified_token_witness :
  AuthController.signOut (ext := Demo.world)
    (Demo.with_rft "rft-john-expired") Demo.store
  = (NextErr (createError "TokenExpiredError" "jwt expired"), Demo.store) /\
  find (User.by_username "johndoe")
       (users (snd (AuthController.signOut (ext := Demo.world)
                      (Demo.with_rft "rft-john-1") Demo.store)))
  = Some (IUserDocument.set_refreshTokens ["rft-john-2"] Demo.john).
Proof.
  split.
  - apply (proj1 (@signOut_requires_verified_token Demo.world
                    (Demo.with_rft "rft-john-expired") Demo.store
                    "rft-john-expired" eq_refl ltac:(discriminate))).
    reflexivity.
  - apply (proj2 (@signOut_requires_verified_token Demo.world
                    (Demo.with_rft "rft-john-1") Demo.store
                    "rft-john-1" eq_refl ltac:(discriminate))
             Demo.johnClaims Demo.john eq_refl eq_refl).
Defined.

(** C8, as stated, at a user whose allowlist holds the presented token
    among others, the token being expired: [jwt.verify] throws, nothing is
    taken out of the allowlist and the store is as it was. *)
Lemma signOut_expired_token_not_revoked :
  let held :=
    IUserDocument.set_refreshTokens ["rft-john-expired"; "rft-john-2"]
      Demo.john in
  let st :=
    {| users := [held; Demo.bob]; socials := []; todos := [];
       nextId := 2 |} in
  In "rft-john-expired" (IUserDocument.refreshTokens held) /\
  AuthController.signOut (ext := Demo.world)
    (Demo.with_rft "rft-john-expired") st
  = (NextErr (createError "TokenExpiredError" "jwt expired"), st) /\
  find (User.by_username "johndoe")
       (users (snd (AuthController.signOut (ext := Demo.world)
                      (Demo.with_rft "rft-john-expired") st)))
  = Some held /\
  IUserDocument.refreshTokens held
  <> filter (fun x => negb (x =? "rft-john-expired"))
            (IUserDocument.refreshTokens held).
Proof.
  split; [simpl; tauto|]. split; [reflexivity|]. split; [reflexivity|].
  discriminate.
Qed.

Lemma signOut_revokes_exactly_witness :
  exists before after u',
    users Demo.store = before ++ Demo.john :: after /\
    users (snd (AuthController.signOut (ext := Demo.world)
                  (Demo.with_rft "rft-john-1") Demo.store))
    = before ++ u' :: after /\
    IUserDocument.refreshTokens u' = ["rft-john-2"] /\
    without_secrets u' = without_secrets Demo.john /\
    IUserDocument.password u' = IUserDocument.password Demo.john.
Proof.
  destruct (@signOut_revokes_exactly Demo.world (Demo.with_rft "rft-john-1")
              Demo.store "rft-john-1" Demo.johnClaims Demo.john
              eq_refl ltac:(discriminate) eq_refl eq_refl
              (or_introl eq_refl))
    as (before & after & u' & Hst & Hst' & Hfilter & _ & _ & _ & Hprofile
        & Hpassword & _).
  exists before, after, u'. repeat split; assumption.
Defined.

(* ------------------------------------------------------------------ *)
(** ** The authorization gates                                         *)
(* ------------------------------------------------------------------ *)

Section GateProperties.
Context {ext : Externals}.

(** C5. The gate on [/:username/...] lets the request through as soon as a
    user with the username of the path is stored.  The request is any
    request: the acting identity it carries is not looked at, so two
    requests on the same path get the same answer, whoever makes them. *)
Theorem authorizeUser_any_actor (req : Request.t) (st : Store)
    (owner : IUserDocument.t) :
  In owner (users st) ->
  IUserDocument.username owner = Request.params_username req ->
  Authorize.authorizeUser req st = (Next, st) /\
  (forall other,
     Request.params_username other = Request.params_username req ->
     Authorize.authorizeUser other st = Authorize.authorizeUser req st).
Proof.
  intros Hin Hname. split.
  - unfold Authorize.authorizeUser, try_catch, bind, User.findOne, gets.
    destruct (find (User.by_username (Request.params_username req))
                   (users st)) as [found|] eqn:Hfind; [reflexivity|].
    apply (find_none _ _ Hfind) in Hin. unfold User.by_username in Hin.
    rewrite Hname, String.eqb_refl in Hin. discriminate.
  - intros other Hpath. unfold Authorize.authorizeUser. now rewrite Hpath.
Qed.

(** The todo of the path belongs to somebody else: AuthorizationError. *)
Lemma authorizeTodo_other_owner (req : Request.t) (st : Store) (id : string)
    (found : ITodoDocument.t) :
  ObjectId (Request.params_todoId req) = inr id ->
  find (fun d => ITodoDocument._id d =? id) (todos st) = Some found ->
  ITodoDocument.username found <> Request.params_username req ->
  Authorize.authorizeTodo req st
  = (NextErr (createError "AuthorizationError"
                          "You are not authorized to do this!"), st).
Proof.
  intros Hid Hfind Howner.
  unfold Authorize.authorizeTodo, try_catch, bind, lift, Todo.findOne, gets.
  rewrite Hid, Hfind.
  now destruct (String.eqb_spec (ITodoDocument.username found)
                                (Request.params_username req)).
Qed.

(** The todo of the path belongs to the user of the path: the request goes
    on. *)
Lemma authorizeTodo_owner (req : Request.t) (st : Store) (id : string)
    (found : ITodoDocument.t) :
  ObjectId (Request.params_todoId req) = inr id ->
  find (fun d => ITodoDocument._id d =? id) (todos st) = Some found ->
  ITodoDocument.username found = Request.params_username req ->
  Authorize.authorizeTodo req st = (Next, st).
Proof.
  intros Hid Hfind Howner.
  unfold Authorize.authorizeTodo, try_catch, bind, lift, Todo.findOne, gets.
  rewrite Hid, Hfind, Howner, String.eqb_refl. reflexivity.
Qed.

(** There is no todo with the id of the path: [findOne] gives [null], the
    read of its [username] throws, and what reaches [next] is a TypeError. *)
Lemma authorizeTodo_absent (req : Request.t) (st : Store) (id : string) :
  ObjectId (Request.params_todoId req) = inr id ->
  find (fun d => ITodoDocument._id d =? id) (todos st) = None ->
  Authorize.authorizeTodo req st
  = (NextErr (TypeError "Cannot read property 'username' of null"), st).
Proof.
  intros Hid Hfind.
  unfold Authorize.authorizeTodo, try_catch, bind, lift, Todo.findOne, gets.
  now rewrite Hid, Hfind.
Qed.

End GateProperties.

Lemma authorizeUser_any_actor_witness :
  In Demo.bob (users Demo.store) /\
  Request.user (Demo.routed (Some Demo.johnClaims) "bob"
                            "5f1d7f3e2c6d4b0017a1b2c3")
  = Some Demo.johnClaims /\
  Authorize.authorizeUser
    (Demo.routed (Some Demo.johnClaims) "bob" "5f1d7f3e2c6d4b0017a1b2c3")
    Demo.store
  = (Next, Demo.store).
Proof.
  split; [simpl; tauto|]. split; [reflexivity|].
  apply (proj1 (authorizeUser_any_actor
                  (Demo.routed (Some Demo.johnClaims) "bob"
                               "5f1d7f3e2c6d4b0017a1b2c3")
                  Demo.store Demo.bob
                  (or_intror (or_introl eq_refl)) eq_refl)).
Defined.

(** C4. The gate on [/:username/todos/:todoId] at a well-formed id that no
    todo has: the error handed to [next] is a TypeError, not an
    AuthorizationError. *)
Theorem authorizeTodo_missing_todo :
  find (fun d => ITodoDocument._id d =? "000000000000000000000000")
       (todos Demo.store) = None /\
  Authorize.authorizeTodo (ext := Demo.world)
    (Demo.routed (Some Demo.johnClaims) "johndoe" "000000000000000000000000")
    Demo.store
  = (NextErr (TypeError "Cannot read property 'username' of null"),
     Demo.store) /\
  name (TypeError "Cannot read property 'username' of null")
  <> "AuthorizationError".
Proof. repeat split. discriminate. Qed.

(* ------------------------------------------------------------------ *)
(** ** Sign-up                                                         *)
(* ------------------------------------------------------------------ *)

Section SignUp.
Context {ext : Externals}.

(** Past the field checks, a sign-up that finds a stored user with its
    username or its email reports on that one user: the username if it has
    the username, the email otherwise. *)
Lemma signUp_existing (minted : Tokens.t) (req : Request.t) (st : Store)
    (first : IUserDocument.t) :
  signUp_valid req ->
  find (User.by_username_or_email (Request.body_username req)
                                  (Request.body_email req))
       (users st) = Some first ->
  AuthController.signUp minted req st
  = (NextErr (if IUserDocument.username first =? Request.body_username req
              then username_taken else email_taken), st).
Proof.
  intros Hvalid Hfind.
  unfold AuthController.signUp, try_catch.
  rewrite (valid_no_failure _ Hvalid).
  unfold bind, User.findOne, gets. rewrite Hfind.
  destruct (IUserDocument.username first =? Request.body_username req)
    eqn:Hname; [reflexivity|].
  apply find_some in Hfind. destruct Hfind as [_ Hq].
  unfold User.by_username_or_email, User.by_username, User.by_email in Hq.
  rewrite Hname in Hq. simpl in Hq. now rewrite Hq.
Qed.

(** C7, as the code has it. A sign-up that passes the field checks and whose
    username is the username of a stored user fails with AlreadyExistsError
    and creates no user: the error reports the username when the first
    stored user that has the username or the email of the request has the
    username, and the email otherwise.  A sign-up whose email is the email
    of a stored user, with a username nobody has, fails with
    AlreadyExistsError, reports the email and creates no user. *)
Theorem signUp_collisions (minted : Tokens.t) (req : Request.t) (st : Store) :
  signUp_valid req ->
  (forall u,
     In u (users st) ->
     IUserDocument.username u = Request.body_username req ->
     exists first,
       find (User.by_username_or_email (Request.body_username req)
                                       (Request.body_email req))
            (users st) = Some first /\
       AuthController.signUp minted req st
       = (NextErr (if IUserDocument.username first
                      =? Request.body_username req
                   then username_taken else email_taken), st)) /\
  (forall u,
     In u (users st) ->
     IUserDocument.email u = Request.body_email req ->
     (forall v, In v (users st) ->
        IUserDocument.username v <> Request.body_username req) ->
     AuthController.signUp minted req st = (NextErr email_taken, st)).
Proof.
  intros Hvalid.
  assert (Hsome : forall u,
            In u (users st) ->
            User.by_username_or_email (Request.body_username req)
              (Request.body_email req) u = true ->
            exists first,
              find (User.by_username_or_email (Request.body_username req)
                                              (Request.body_email req))
                   (users st) = Some first).
  { intros u Hin Hq.
    destruct (find _ (users st)) as [first|] eqn:Hfind; [now exists first|].
    apply (find_none _ _ Hfind) in Hin. congruence. }
  split.
  - intros u Hin Hname.
    destruct (Hsome u Hin) as (first & Hfind).
    { unfold User.by_username_or_email, User.by_username.
      now rewrite Hname, String.eqb_refl. }
    exists first. split; [exact Hfind|].
    now apply signUp_existing.
  - intros u Hin Hemail Hfresh.
    destruct (Hsome u Hin) as (first & Hfind).
    { unfold User.by_username_or_email, User.by_email.
      rewrite Hemail, String.eqb_refl. apply orb_true_r. }
    rewrite (signUp_existing minted req st first Hvalid Hfind).
    destruct (String.eqb_spec (IUserDocument.username first)
                              (Request.body_username req)) as [Hname|_];
      [|reflexivity].
    apply find_some in Hfind. destruct Hfind as [Hin' _].
    now apply Hfresh in Hin'.
Qed.

End SignUp.

(** C7, as stated, at a request whose username is John's and whose email is
    Bob's, Bob being stored first: the error reports the email, not the
    username. *)
Lemma signUp_username_taken_reports_email :
  signUp_valid (ext := Demo.world)
    (Demo.signUpRequest "Al" "johndoe" "bob@builder.com" "secret") /\
  In Demo.john (users Demo.bobFirst) /\
  IUserDocument.username Demo.john
  = Request.body_username
      (Demo.signUpRequest "Al" "johndoe" "bob@builder.com" "secret") /\
  fst (AuthController.signUp (ext := Demo.world) Demo.minted
         (Demo.signUpRequest "Al" "johndoe" "bob@builder.com" "secret")
         Demo.bobFirst)
  = NextErr (createError "AlreadyExistsError" "Email isn't available.") /\
  fst (AuthController.signUp (ext := Demo.world) Demo.minted
         (Demo.signUpRequest "Al" "johndoe" "bob@builder.com" "secret")
         Demo.bobFirst)
  <> NextErr (createError "AlreadyExistsError" "Username isn't available.").
Proof.
  split; [reflexivity|]. split; [simpl; tauto|]. split; [reflexivity|].
  split; [reflexivity | discriminate].
Qed.

Lemma signUp_collisions_witness :
  AuthController.signUp (ext := Demo.world) Demo.minted
    (Demo.signUpRequest "Johnny" "johndoe" "johnny@doe.com" "secret")
    Demo.store
  = (NextErr (createError "AlreadyExistsError" "Username isn't available."),
     Demo.store) /\
  AuthController.signUp (ext := Demo.world) Demo.minted
    (Demo.signUpRequest "Johnny" "johnny" "john@doe.com" "secret")
    Demo.store
  = (NextErr (createError "AlreadyExistsError" "Email isn't available."),
     Demo.store).
Proof.
  split.
  - destruct (proj1 (@signUp_collisions Demo.world Demo.minted
                       (Demo.signUpRequest "Johnny" "johndoe"
                                           "johnny@doe.com" "secret")
                       Demo.store eq_refl)
                Demo.john (or_introl eq_refl) eq_refl)
      as (first & Hfind & Hout).
    injection Hfind as <-. exact Hout.
  - apply (proj2 (@signUp_collisions Demo.world Demo.minted
                    (Demo.signUpRequest "Johnny" "johnny" "john@doe.com"
                                        "secret")
                    Demo.store eq_refl)
             Demo.john (or_introl eq_refl) eq_refl).
    intros v [<- | [<- | []]]; discriminate.
Defined.

(* ------------------------------------------------------------------ *)
(** ** New users                                                       *)
(* ------------------------------------------------------------------ *)

Section NewUsers.
Context {ext : Externals}.

(** A document whose username and email nobody has is stored as the last
    one. *)
Lemma create_fresh (doc : nat -> IUserDocument.t) (st : Store) :
  find (User.by_username (IUserDocument.username (doc (nextId st))))
       (users st) = None ->
  find (User.by_email (IUserDocument.email (doc (nextId st))))
       (users st) = None ->
  exists u,
    User.create doc st
    = (inr u,
       {| users := users st ++ [u]; socials := socials st;
          todos := todos st; nextId := S (nextId st) |}) /\
    IUserDocument.username u = IUserDocument.username (doc (nextId st)) /\
    IUserDocument.isUsernameSet u
    = IUserDocument.isUsernameSet (doc (nextId st)).
Proof.
  intros Hname Hemail. unfold User.create. simpl.
  replace (existsb _ (users st)) with false.
  - eexists. split; [reflexivity|]. split; reflexivity.
  - symmetry. apply not_true_is_false. rewrite existsb_exists.
    intros (v & Hin & Hq).
    unfold User.by_username_or_email in Hq. apply orb_true_iff in Hq.
    destruct Hq as [Hq | Hq].
    + apply (find_none _ _ Hname) in Hin. congruence.
    + apply (find_none _ _ Hemail) in Hin. congruence.
Qed.

(** Whatever [create] stores is the document it was given, put last. *)
Lemma create_stores (doc : nat -> IUserDocument.t) (st st' : Store)
    (u : IUserDocument.t) :
  User.create doc st = (inr u, st') ->
  users st' = users st ++ [u] /\
  IUserDocument.username u = IUserDocument.username (doc (nextId st)) /\
  IUserDocument.isUsernameSet u
  = IUserDocument.isUsernameSet (doc (nextId st)).
Proof.
  unfold User.create. simpl.
  destruct (existsb _ (users st)); [discriminate|].
  intros [= <- <-]. repeat split.
Qed.

(** A local sign-up that answers has stored one more user, under the
    username of the request and with [isUsernameSet] on. *)
Lemma signUp_creates (minted : Tokens.t) (req : Request.t) (st st' : Store)
    (r : Response) :
  AuthController.signUp minted req st = (Sent r, st') ->
  exists chosen,
    users st' = users st ++ [chosen] /\
    IUserDocument.username chosen = Request.body_username req /\
    IUserDocument.isUsernameSet chosen = true.
Proof.
  unfold AuthController.signUp, try_catch.
  destruct (negb _); [discriminate|].
  unfold bind at 1. unfold User.findOne, gets.
  destruct (find _ (users st)) as [existed|].
  - destruct (_ =? _); [discriminate|]. destruct (_ =? _); discriminate.
  - unfold generateUserTokens. simpl. unfold bind, ret.
    destruct (User.create _ st) as [[e|u] st1] eqn:Hcreate; [discriminate|].
    intros [= _ <-].
    apply create_stores in Hcreate. destruct Hcreate as (Husers & Hname & Hset).
    now exists u.
Qed.

(** The run of a Google sign-in that meets nobody: a user and its social
    link are stored, and the answer is a 201. *)
Lemma googleSignIn_creates (minted : Tokens.t) (req : Request.t)
    (st : Store) (payload : TokenPayload.t) :
  verifyIdToken (Request.body_googleIdToken req) = inr payload ->
  find (User.by_email (TokenPayload.email payload)) (users st) = None ->
  find (User.by_username (TokenPayload.sub payload)) (users st) = None ->
  exists r created,
    AuthController.googleSignIn minted req st
    = (Sent r,
       {| users := users st ++ [created];
          socials :=
            socials st
            ++ [{| ISocialDocument.name := "google";
                   ISocialDocument.socialId := TokenPayload.sub payload;
                   ISocialDocument.userId := IUserDocument._id created |}];
          todos := todos st; nextId := S (nextId st) |}) /\
    status r = 201 /\
    IUserDocument.username created = TokenPayload.sub payload /\
    IUserDocument.isUsernameSet created = true.
Proof.
  intros Hverify Hemail Hname.
  unfold AuthController.googleSignIn, try_catch.
  unfold bind at 1. unfold lift. rewrite Hverify.
  unfold bind at 1. unfold User.findOne at 1, gets. rewrite Hemail.
  unfold bind at 1. unfold Social.findOne, gets.
  unfold generateUserTokens. simpl. unfold bind at 1. unfold ret at 1.
  unfold bind at 1.
  match goal with
  | |- context [User.create ?d st] =>
      destruct (create_fresh d st Hname Hemail)
        as (created & Hcreate & Hcreated & Hset);
      rewrite Hcreate
  end.
  simpl in Hcreated, Hset.
  unfold bind, Social.create, ret. simpl.
  eexists. exists created.
  split; [reflexivity|]. split; [reflexivity|]. now split.
Qed.

(** A Google sign-in that meets nobody and cannot store its user: the
    error of [create] is handed over and the store stays as it was. *)
Lemma googleSignIn_not_created (minted : Tokens.t) (req : Request.t)
    (st : Store) (payload : TokenPayload.t) (owner : IUserDocument.t) :
  verifyIdToken (Request.body_googleIdToken req) = inr payload ->
  find (User.by_email (TokenPayload.email payload)) (users st) = None ->
  find (User.by_username (TokenPayload.sub payload)) (users st)
  = Some owner ->
  snd (AuthController.googleSignIn minted req st) = st.
Proof.
  intros Hverify Hemail Hname.
  unfold AuthController.googleSignIn, try_catch.
  unfold bind at 1. unfold lift. rewrite Hverify.
  unfold bind at 1. unfold User.findOne at 1, gets. rewrite Hemail.
  unfold bind at 1. unfold Social.findOne, gets.
  unfold generateUserTokens. simpl. unfold bind at 1. unfold ret at 1.
  unfold bind at 1. unfold User.create. simpl.
  replace (existsb _ (users st)) with true; [reflexivity|].
  symmetry. apply existsb_exists. exists owner.
  apply find_some in Hname. destruct Hname as [Hin Hq].
  split; [exact Hin|].
  unfold User.by_username_or_email. now rewrite Hq.
Qed.

(** C10. At a Google sign-in whose verified email no stored user has, the
    user that is created has the [sub] of the verified payload as its
    username and is stored with [isUsernameSet] true: the value a user gets
    who chose a username at a local sign-up.  The user is created, and the
    answer is a 201, whenever the subject id is nobody's username. *)
Theorem googleSignIn_new_user (minted : Tokens.t) (req : Request.t)
    (st : Store) (payload : TokenPayload.t) :
  verifyIdToken (Request.body_googleIdToken req) = inr payload ->
  find (User.by_email (TokenPayload.email payload)) (users st) = None ->
  (find (User.by_username (TokenPayload.sub payload)) (users st) = None ->
   exists r created,
     fst (AuthController.googleSignIn minted req st) = Sent r /\
     status r = 201 /\
     users (snd (AuthController.googleSignIn minted req st))
     = users st ++ [created]) /\
  (forall created,
     users (snd (AuthController.googleSignIn minted req st))
     = users st ++ [created] ->
     IUserDocument.username created = TokenPayload.sub payload /\
     IUserDocument.isUsernameSet created = true /\
     (forall minted' req' st1 st1' r1,
        AuthController.signUp minted' req' st1 = (Sent r1, st1') ->
        exists chosen,
          users st1' = users st1 ++ [chosen] /\
          IUserDocument.username chosen = Request.body_username req' /\
          IUserDocument.isUsernameSet chosen
          = IUserDocument.isUsernameSet created)).
Proof.
  intros Hverify Hemail. split.
  - intros Hname.
    destruct (googleSignIn_creates minted req st payload Hverify Hemail Hname)
      as (r & created & Hrun & Hstatus & _).
    exists r, created. rewrite Hrun. now repeat split.
  - intros created Hgrown.
    destruct (find (User.by_username (TokenPayload.sub payload)) (users st))
      as [owner|] eqn:Hname.
    + rewrite (googleSignIn_not_created minted req st payload owner
                 Hverify Hemail Hname) in Hgrown.
      apply (f_equal (@length _)) in Hgrown.
      rewrite length_app in Hgrown. simpl in Hgrown. lia.
    + destruct (googleSignIn_creates minted req st payload Hverify Hemail
                  Hname)
        as (r & created' & Hrun & _ & Hcreated & Hset).
      rewrite Hrun in Hgrown. simpl in Hgrown.
      apply app_inv_head in Hgrown. injection Hgrown as ->.
      split; [exact Hcreated|]. split; [exact Hset|].
      intros minted' req' st1 st1' r1 Hup.
      destruct (signUp_creates _ _ _ _ _ Hup) as (chosen & ? & ? & ?).
      exists chosen. repeat split; congruence.
Qed.

End NewUsers.

Lemma googleSignIn_new_user_witness :
  (exists r created,
     fst (AuthController.googleSignIn (ext := Demo.world) Demo.minted
            (Demo.googleRequest "google-id-token") Demo.store) = Sent r /\
     status r = 201 /\
     users (snd (AuthController.googleSignIn (ext := Demo.world) Demo.minted
                   (Demo.googleRequest "google-id-token") Demo.store))
     = users Demo.store ++ [created]) /\
  (forall created,
     users (snd (AuthController.googleSignIn (ext := Demo.world) Demo.minted
                   (Demo.googleRequest "google-id-token") Demo.store))
     = users Demo.store ++ [created] ->
     IUserDocument.username created = "110169484474386276334" /\
     IUserDocument.isUsernameSet created = true).
Proof.
  destruct (@googleSignIn_new_user Demo.world Demo.minted
              (Demo.googleRequest "google-id-token") Demo.store
              _ eq_refl eq_refl)
    as (Hcreates & Hcreated).
  split.
  - exact (Hcreates eq_refl).
  - intros created Hgrown.
    destruct (Hcreated created Hgrown) as (Hname & Hset & _).
    now split.
Defined.

(* ------------------------------------------------------------------ *)
(** ** What a response tells about the user                            *)
(* ------------------------------------------------------------------ *)





Section Responses.
Context {ext : Externals}.






End Responses.


(* ------------------------------------------------------------------ *)
(** ** More on sign-out                                                *)
(* ------------------------------------------------------------------ *)

Lemma update_first_fixed {A} (p : A -> bool) (f : A -> A) (l : list A)
    (a : A) :
  find p l = Some a -> f a = a -> update_first p f l = l.
Proof.
  induction l as [|x rest IH]; simpl; [reflexivity|].
  destruct (p x).
  - intros [= ->] Hfixed. now rewrite Hfixed.
  - intros Hfind Hfixed. now rewrite IH.
Qed.

Lemma update_first_map {A B} (p : A -> bool) (f : A -> A) (g : A -> B)
    (l : list A) :
  (forall x, g (f x) = g x) ->
  map g (update_first p f l) = map g l.
Proof.
  intros Hg. induction l as [|x rest IH]; simpl; [reflexivity|].
  destruct (p x); simpl; [now rewrite Hg | now rewrite IH].
Qed.

Lemma update_first_In {A} (p : A -> bool) (f : A -> A) (l : list A) (y : A) :
  In y (update_first p f l) ->
  In y l \/ exists a, find p l = Some a /\ y = f a.
Proof.
  induction l as [|x rest IH]; simpl; [tauto|].
  destruct (p x); simpl.
  - intros [<- | Hin]; [right; now exists x | left; now right].
  - intros [<- | Hin]; [left; now left|].
    destruct (IH Hin) as [Hrest | Hnew]; [left; now right | now right].
Qed.

Lemma set_own_refreshTokens (u : IUserDocument.t) :
  IUserDocument.set_refreshTokens (IUserDocument.refreshTokens u) u = u.
Proof. now destruct u. Qed.

Section MoreSignOut.
Context {ext : Externals}.

(** X1. The token of a sign-out is the first truthy one among the signed
    cookie, the plain cookie, the [X-RFT] header and the [x-rft] header, in
    this order, and what the body holds when none of them is truthy; it is
    truthy exactly when one of the five carriers holds a string that is not
    empty. *)
Theorem receivedRefreshToken_first_truthy (req : Request.t) :
  AuthController.receivedRefreshToken req
  = match find truthy [Request.signedCookies_rft req;
                       Request.cookies_rft req;
                       Request.headers_X_RFT req;
                       Request.headers_x_rft req] with
    | Some v => v
    | None => Request.body_rft req
    end /\
  truthy (AuthController.receivedRefreshToken req)
  = existsb truthy [Request.signedCookies_rft req; Request.cookies_rft req;
                    Request.headers_X_RFT req; Request.headers_x_rft req;
                    Request.body_rft req].
Proof.
  unfold AuthController.receivedRefreshToken, js_or. cbn [find existsb].
  destruct (truthy (Request.signedCookies_rft req)) eqn:H1;
    rewrite ?H1; [now split|].
  destruct (truthy (Request.cookies_rft req)) eqn:H2;
    rewrite ?H2; [now split|].
  destruct (truthy (Request.headers_X_RFT req)) eqn:H3;
    rewrite ?H3; [now split|].
  destruct (truthy (Request.headers_x_rft req)) eqn:H4;
    rewrite ?H4; [now split|].
  split; [reflexivity|]. simpl. now rewrite orb_false_r.
Qed.

Lemma no_carrier_no_token (req : Request.t) :
  existsb truthy [Request.signedCookies_rft req; Request.cookies_rft req;
                  Request.headers_X_RFT req; Request.headers_x_rft req;
                  Request.body_rft req] = false ->
  truthy (AuthController.receivedRefreshToken req) = false.
Proof.
  cbn [existsb]. unfold AuthController.receivedRefreshToken, js_or.
  destruct (truthy (Request.signedCookies_rft req)) eqn:H1;
    [discriminate|].
  destruct (truthy (Request.cookies_rft req)) eqn:H2; [discriminate|].
  destruct (truthy (Request.headers_X_RFT req)) eqn:H3; [discriminate|].
  destruct (truthy (Request.headers_x_rft req)) eqn:H4; [discriminate|].
  simpl. now rewrite orb_false_r.
Qed.

(** X2. A sign-out on which no carrier holds a refresh token, an empty
    string counting as none, answers 200 with the four cookies cleared and
    leaves the store as it is; [jwt.verify] is not asked, so this holds in
    every world. *)
Theorem signOut_without_token (req : Request.t) (st : Store) :
  existsb truthy [Request.signedCookies_rft req; Request.cookies_rft req;
                  Request.headers_X_RFT req; Request.headers_x_rft req;
                  Request.body_rft req] = false ->
  AuthController.signOut req st
  = (Sent {| status := 200;
             cookies := [clearCookie "rft"; clearCookie "act";
                         clearCookie "_csrf"; clearCookie "XSRF-TOKEN"];
             json := JObj [("message", JStr "Successfully signed out!")] |},
     st).
Proof.
  intros Hnone. unfold AuthController.signOut, try_catch.
  now rewrite (no_carrier_no_token req Hnone).
Qed.

(** A sign-out with a verified token that its owner does not hold. *)
Lemma signOut_not_held (req : Request.t) (st : Store) (t : string)
    (claims : Claims.t) (u : IUserDocument.t) :
  AuthController.receivedRefreshToken req = Some t ->
  t <> "" ->
  jwt_verify t = inr claims ->
  find (User.by_username (Claims.username claims)) (users st) = Some u ->
  ~ In t (IUserDocument.refreshTokens u) ->
  AuthController.signOut req st
  = (AuthController.signed_out
       [clearCookie "act"; clearCookie "rft"; clearCookie "_csrf";
        clearCookie "XSRF-TOKEN"], st).
Proof.
  intros Hreceived Hne Hverify Hfind Hnotin.
  rewrite (signOut_verified req st t claims u Hreceived Hne Hverify Hfind).
  f_equal. rewrite (notin_remove string_dec _ _ Hnotin).
  rewrite (update_first_fixed _ _ _ u Hfind (set_own_refreshTokens u)).
  now destruct st.
Qed.

(** X3. Revoking is idempotent.  A sign-out with a verified token that is
    not in its owner's allowlist answers 200 and changes nothing; and so a
    second sign-out with the same request, after a first one that revoked
    the token, answers 200 and leaves the store as the first one left it. *)
Theorem signOut_idempotent (req : Request.t) (st : Store) (t : string)
    (claims : Claims.t) (u : IUserDocument.t) :
  AuthController.receivedRefreshToken req = Some t ->
  t <> "" ->
  jwt_verify t = inr claims ->
  find (User.by_username (Claims.username claims)) (users st) = Some u ->
  (~ In t (IUserDocument.refreshTokens u) ->
   AuthController.signOut req st
   = (AuthController.signed_out
        [clearCookie "act"; clearCookie "rft"; clearCookie "_csrf";
         clearCookie "XSRF-TOKEN"], st)) /\
  AuthController.signOut req (snd (AuthController.signOut req st))
  = (AuthController.signed_out
       [clearCookie "act"; clearCookie "rft"; clearCookie "_csrf";
        clearCookie "XSRF-TOKEN"],
     snd (AuthController.signOut req st)).
Proof.
  intros Hreceived Hne Hverify Hfind. split.
  - now apply signOut_not_held with (claims := claims) (u := u).
  - apply signOut_not_held
      with (t := t) (claims := claims)
           (u := IUserDocument.set_refreshTokens
                   (remove string_dec t (IUserDocument.refreshTokens u)) u);
      trivial.
    + rewrite (signOut_verified req st t claims u Hreceived Hne Hverify
                 Hfind).
      simpl. now apply find_update_first.
    + simpl. apply remove_In.
Qed.

(** X4. A sign-out with a verified token whose username no stored user has:
    the read of [refreshTokens] on [null] throws, a TypeError is handed to
    [next], no cookie is cleared and the store stays as it is. *)
Theorem signOut_unknown_user (req : Request.t) (st : Store) (t : string)
    (claims : Claims.t) :
  AuthController.receivedRefreshToken req = Some t ->
  t <> "" ->
  jwt_verify t = inr claims ->
  (forall u, In u (users st) ->
     IUserDocument.username u <> Claims.username claims) ->
  AuthController.signOut req st
  = (NextErr (TypeError "Cannot read property 'refreshTokens' of null"), st).
Proof.
  intros Hreceived Hne Hverify Hnobody.
  unfold AuthController.signOut, try_catch.
  rewrite Hreceived, (truthy_nonempty t Hne). simpl.
  unfold bind, lift, User.findOne, gets. rewrite Hverify.
  destruct (find _ (users st)) as [u|] eqn:Hfind; [|reflexivity].
  apply find_some in Hfind. destruct Hfind as [Hin Hq].
  apply String.eqb_eq in Hq. now apply Hnobody in Hin.
Qed.

(** X5. Whatever the request, a sign-out writes nothing but allowlists, and
    it only takes entries out of them: the users are the same documents in
    the same order up to their [refreshTokens], every allowlist afterwards
    is within the allowlist the same user had before, and the socials, the
    todos and the id counter are untouched. *)
Theorem signOut_only_shrinks_allowlists (req : Request.t) (st : Store) :
  let st' := snd (AuthController.signOut req st) in
  map (IUserDocument.set_refreshTokens []) (users st')
  = map (IUserDocument.set_refreshTokens []) (users st) /\
  (forall u', In u' (users st') ->
     exists u, In u (users st) /\
       IUserDocument.set_refreshTokens [] u'
       = IUserDocument.set_refreshTokens [] u /\
       incl (IUserDocument.refreshTokens u')
            (IUserDocument.refreshTokens u)) /\
  socials st' = socials st /\ todos st' = todos st /\
  nextId st' = nextId st.
Proof.
  assert (Hsame : forall s : Store,
            map (IUserDocument.set_refreshTokens []) (users s)
            = map (IUserDocument.set_refreshTokens []) (users s) /\
            (forall u', In u' (users s) ->
               exists u, In u (users s) /\
                 IUserDocument.set_refreshTokens [] u'
                 = IUserDocument.set_refreshTokens [] u /\
                 incl (IUserDocument.refreshTokens u')
                      (IUserDocument.refreshTokens u)) /\
            socials s = socials s /\ todos s = todos s /\
            nextId s = nextId s).
  { intros s. repeat split; trivial.
    intros u' Hin. exists u'. repeat split; trivial. apply incl_refl. }
  intros st'. subst st'.
  destruct (AuthController.receivedRefreshToken req) as [t|] eqn:Hreceived.
  2:{ unfold AuthController.signOut, try_catch. rewrite Hreceived.
      apply Hsame. }
  destruct (String.eqb_spec t "") as [->|Hne].
  { unfold AuthController.signOut, try_catch. rewrite Hreceived.
    apply Hsame. }
  destruct (jwt_verify t) as [e|claims] eqn:Hverify.
  { rewrite (signOut_unverified req st t e Hreceived Hne Hverify).
    apply Hsame. }
  destruct (find (User.by_username (Claims.username claims)) (users st))
    as [found|] eqn:Hfind.
  - rewrite (signOut_verified req st t claims found Hreceived Hne Hverify
               Hfind).
    simpl. split; [now apply update_first_map|].
    split; [|now repeat split].
    intros u' Hin. apply update_first_In in Hin.
    destruct Hin as [Hin | (a & Ha & ->)].
    + exists u'. repeat split; trivial. apply incl_refl.
    + rewrite Hfind in Ha. injection Ha as <-.
      exists found. split; [now apply find_some in Hfind|].
      split; [reflexivity|]. simpl. intros x Hx.
      rewrite <- filter_neq_remove in Hx. now apply filter_In in Hx.
  - unfold AuthController.signOut, try_catch.
    rewrite Hreceived, (truthy_nonempty t Hne). simpl.
    unfold bind, lift, User.findOne, gets. rewrite Hverify, Hfind.
    apply Hsame.
Qed.

End MoreSignOut.

Lemma signOut_without_token_witness :
  AuthController.signOut (ext := Demo.world)
    (Demo.carrying (Some "") None None (Some "") None) Demo.store
  = (Sent {| status := 200;
             cookies := [clearCookie "rft"; clearCookie "act";
                         clearCookie "_csrf"; clearCookie "XSRF-TOKEN"];
             json := JObj [("message", JStr "Successfully signed out!")] |},
     Demo.store).
Proof.
  apply (@signOut_without_token Demo.world
           (Demo.carrying (Some "") None None (Some "") None) Demo.store).
  reflexivity.
Defined.

Lemma signOut_idempotent_witness :
  AuthController.signOut (ext := Demo.world)
    (Demo.carrying None None None (Some "rft-john-2") None)
    (snd (AuthController.signOut (ext := Demo.world)
            (Demo.carrying None None None (Some "rft-john-2") None)
            Demo.store))
  = (AuthController.signed_out
       [clearCookie "act"; clearCookie "rft"; clearCookie "_csrf";
        clearCookie "XSRF-TOKEN"],
     snd (AuthController.signOut (ext := Demo.world)
            (Demo.carrying None None None (Some "rft-john-2") None)
            Demo.store)).
Proof.
  apply (proj2 (@signOut_idempotent Demo.world
                  (Demo.carrying None None None (Some "rft-john-2") None)
                  Demo.store "rft-john-2" Demo.johnClaims Demo.john
                  eq_refl ltac:(discriminate) eq_refl eq_refl)).
Defined.

Lemma signOut_unknown_user_witness :
  AuthController.signOut (ext := Demo.world)
    (Demo.carrying None (Some "rft-john-1") None None None)
    {| users := [Demo.bob]; socials := []; todos := []; nextId := 2 |}
  = (NextErr (TypeError "Cannot read property 'refreshTokens' of null"),
     {| users := [Demo.bob]; socials := []; todos := []; nextId := 2 |}).
Proof.
  apply (@signOut_unknown_user Demo.world
           (Demo.carrying None (Some "rft-john-1") None None None)
           {| users := [Demo.bob]; socials := []; todos := [];
              nextId := 2 |}
           "rft-john-1" Demo.johnClaims eq_refl ltac:(discriminate) eq_refl).
  intros u [<- | []]. discriminate.
Defined.

(* ------------------------------------------------------------------ *)
(** ** Field checks and sign-up                                        *)
(* ------------------------------------------------------------------ *)

(** The loop over the checks keeps, in the order of the keys, the fields
    whose check returned a message that is not empty. *)
Lemma errorMessages_In (validations : list (string * option string))
    (k m : string) :
  In (k, m) (errorMessages validations)
  <-> In (k, Some m) validations /\ m <> "".
Proof.
  unfold errorMessages. rewrite in_flat_map. split.
  - intros ([k' v] & Hin & Hkm). simpl in Hkm.
    destruct v as [m'|]; [|contradiction].
    destruct (String.eqb_spec m' "") as [->|Hne]; simpl in Hkm;
      [contradiction|].
    destruct Hkm as [[= <- <-] | []]. now split.
  - intros [Hin Hne]. exists (k, Some m). split; [exact Hin|]. simpl.
    destruct (String.eqb_spec m "") as [->|_]; [contradiction|].
    simpl. now left.
Qed.

Lemma failed_some (l : list (string * string)) (x : string * string) :
  In x l -> negb (length l =? 0)%nat = true.
Proof. now destruct l. Qed.

Section FieldChecks.
Context {ext : Externals}.

(** X6. A sign-up on which the check of some field returns a message is
    refused before the store is looked at: a ValidationError with status 400
    is handed to [next], it names that field with its message, it names no
    field whose check returned nothing, and the store stays as it is, also
    when the username or the email is taken. *)
Theorem signUp_validation_first (minted : Tokens.t) (req : Request.t)
    (st : Store) (k m : string) :
  In (k, Some m)
     [("firstName", CustomValidator_firstName (Request.body_firstName req));
      ("username", CustomValidator_username (Request.body_username req));
      ("email", CustomValidator_email (Request.body_email req));
      ("password", CustomValidator_password (Request.body_password req))] ->
  m <> "" ->
  exists e,
    AuthController.signUp minted req st = (NextErr e, st) /\
    name e = "ValidationError" /\
    statusCode e = Some 400 /\
    message e = "Failed to sign up, please correct user information!" /\
    In (k, m) (messages e) /\
    (forall k' m', In (k', m') (messages e) ->
       m' <> "" /\
       In (k', Some m')
          [("firstName",
            CustomValidator_firstName (Request.body_firstName req));
           ("username", CustomValidator_username (Request.body_username req));
           ("email", CustomValidator_email (Request.body_email req));
           ("password",
            CustomValidator_password (Request.body_password req))]).
Proof.
  intros Hin Hne.
  assert (Hfailed := proj2 (errorMessages_In _ k m) (conj Hin Hne)).
  unfold AuthController.signUp, try_catch.
  rewrite (failed_some _ _ Hfailed).
  eexists. split; [reflexivity|].
  unfold ValidationError. cbn [name statusCode message messages].
  do 4 (split; [reflexivity || exact Hfailed|]).
  intros k' m' Hin'. apply errorMessages_In in Hin'. tauto.
Qed.

(** X7. The same for a sign-in, over its two fields: no user is looked up,
    no token is issued, and the error is a ValidationError with status 400
    that names the failed fields. *)
Theorem signIn_validation_first (minted : Tokens.t) (req : Request.t)
    (st : Store) (k m : string) :
  In (k, Some m)
     [("userIdentifier",
       CustomValidator_userIdentifier (Request.body_userIdentifier req));
      ("password", CustomValidator_password (Request.body_password req))] ->
  m <> "" ->
  exists e,
    AuthController.signIn minted req st = (NextErr e, st) /\
    name e = "ValidationError" /\
    statusCode e = Some 400 /\
    message e = "Failed to sign in, please correct user information!" /\
    In (k, m) (messages e) /\
    (forall k' m', In (k', m') (messages e) ->
       m' <> "" /\
       In (k', Some m')
          [("userIdentifier",
            CustomValidator_userIdentifier (Request.body_userIdentifier req));
           ("password",
            CustomValidator_password (Request.body_password req))]).
Proof.
  intros Hin Hne.
  assert (Hfailed := proj2 (errorMessages_In _ k m) (conj Hin Hne)).
  unfold AuthController.signIn, try_catch.
  rewrite (failed_some _ _ Hfailed).
  eexists. split; [reflexivity|].
  unfold ValidationError. cbn [name statusCode message messages].
  do 4 (split; [reflexivity || exact Hfailed|]).
  intros k' m' Hin'. apply errorMessages_In in Hin'. tauto.
Qed.

Lemma find_app_last {A} (p : A -> bool) (l : list A) (a : A) :
  find p l = None -> p a = true -> find p (l ++ [a]) = Some a.
Proof.
  induction l as [|x rest IH]; simpl.
  - intros _ ->. reflexivity.
  - destruct (p x); [discriminate | exact IH].
Qed.

Lemma find_none_weaken {A} (p q : A -> bool) (l : list A) :
  (forall x, q x = true -> p x = true) ->
  find p l = None -> find q l = None.
Proof.
  intros Hqp. induction l as [|x rest IH]; simpl; [reflexivity|].
  destruct (p x) eqn:Hp; [discriminate|].
  destruct (q x) eqn:Hq; [|exact IH].
  apply Hqp in Hq. congruence.
Qed.

(** X8. A sign-up that passes the field checks with a username and an email
    nobody has answers 201 and stores one user, last: the fields are the
    ones of the body (an absent last name is the empty string), the flags
    are [isUsernameSet], [isPasswordSet] and not [verified], and the
    allowlist is the one refresh token that the [rft] cookie carries.  From
    then on the username and the email each find this user. *)
Theorem signUp_creates_user (minted : Tokens.t) (req : Request.t)
    (st : Store) :
  signUp_valid req ->
  find (User.by_username_or_email (Request.body_username req)
                                  (Request.body_email req))
       (users st) = None ->
  exists r u,
    AuthController.signUp minted req st
    = (Sent r,
       {| users := users st ++ [u]; socials := socials st;
          todos := todos st; nextId := S (nextId st) |}) /\
    status r = 201 /\
    cookies r = [cookie "act" (Tokens.accessToken minted);
                 cookie "rft" (Tokens.refreshToken minted);
                 cookie "XSRF-TOKEN" (Request.csrfToken req)] /\
    IUserDocument.refreshTokens u = [Tokens.refreshToken minted] /\
    IUserDocument.firstName u = Request.body_firstName req /\
    IUserDocument.lastName u
    = match Request.body_lastName req with Some l => l | None => "" end /\
    IUserDocument.username u = Request.body_username req /\
    IUserDocument.email u = Request.body_email req /\
    IUserDocument.isUsernameSet u = true /\
    IUserDocument.isPasswordSet u = true /\
    IUserDocument.verified u = false /\
    IUserDocument.profileImageURL u = None /\
    find (User.by_username (Request.body_username req)) (users st ++ [u])
    = Some u /\
    find (User.by_email (Request.body_email req)) (users st ++ [u]) = Some u.
Proof.
  intros Hvalid Hfresh.
  unfold AuthController.signUp, try_catch.
  rewrite (valid_no_failure _ Hvalid).
  unfold bind at 1. unfold User.findOne, gets. rewrite Hfresh.
  unfold generateUserTokens. simpl. unfold bind, ret, User.create. simpl.
  replace (existsb _ (users st)) with false.
  2:{ symmetry. apply not_true_is_false. rewrite existsb_exists.
      intros (v & Hin & Hq). apply (find_none _ _ Hfresh) in Hin.
      congruence. }
  do 2 eexists. split; [reflexivity|]. simpl.
  repeat split.
  - apply find_app_last.
    + apply (find_none_weaken _ _ _ (fun x Hx => orb_true_intro _ _
               (or_introl Hx)) Hfresh).
    + apply String.eqb_refl.
  - apply find_app_last.
    + apply (find_none_weaken _ _ _ (fun x Hx => orb_true_intro _ _
               (or_intror Hx)) Hfresh).
    + apply String.eqb_refl.
Qed.

(** X9. A sign-up never leaves its request open: it answers or it hands an
    error to [next].  The branch in which the stored user that was found
    has neither the username nor the email of the request, and in which
    nothing would be sent, is never taken. *)
Theorem signUp_never_pending (minted : Tokens.t) (req : Request.t)
    (st : Store) :
  fst (AuthController.signUp minted req st) <> Pending /\
  fst (AuthController.signUp minted req st) <> Next.
Proof.
  remember (fst (AuthController.signUp minted req st)) as o eqn:Ho.
  unfold AuthController.signUp, try_catch in Ho.
  destruct (negb _); [subst o; split; discriminate|].
  unfold bind at 1 in Ho. unfold User.findOne, gets in Ho.
  destruct (find _ (users st)) as [existed|] eqn:Hfind.
  - destruct (IUserDocument.username existed =? Request.body_username req)
      eqn:Hname; [subst o; split; discriminate|].
    apply find_some in Hfind. destruct Hfind as [_ Hq].
    unfold User.by_username_or_email, User.by_username, User.by_email in Hq.
    rewrite Hname in Hq. simpl in Hq. rewrite Hq in Ho.
    subst o; split; discriminate.
  - unfold generateUserTokens in Ho. simpl in Ho. unfold bind, ret in Ho.
    destruct (User.create _ st) as [[e|u] st1]; subst o; split; discriminate.
Qed.

End FieldChecks.

Lemma signUp_validation_first_witness :
  exists e,
    AuthController.signUp (ext := Demo.world) Demo.minted
      (Demo.signUpRequest "John" "johndoe" "john@doe.com" "") Demo.store
    = (NextErr e, Demo.store) /\
    name e = "ValidationError" /\
    In ("password", "This field is required!") (messages e).
Proof.
  destruct (@signUp_validation_first Demo.world Demo.minted
              (Demo.signUpRequest "John" "johndoe" "john@doe.com" "")
              Demo.store "password" "This field is required!"
              (or_intror (or_intror (or_intror (or_introl eq_refl))))
              ltac:(discriminate))
    as (e & Hrun & Hname & _ & _ & Hin & _).
  exists e. split; [exact Hrun|]. split; [exact Hname | exact Hin].
Defined.

Lemma signIn_validation_first_witness :
  exists e,
    AuthController.signIn (ext := Demo.world) Demo.minted
      (Demo.signInRequest "" "johndoe") Demo.store
    = (NextErr e, Demo.store) /\
    name e = "ValidationError" /\
    In ("userIdentifier", "This field is required!") (messages e).
Proof.
  destruct (@signIn_validation_first Demo.world Demo.minted
              (Demo.signInRequest "" "johndoe") Demo.store
              "userIdentifier" "This field is required!"
              (or_introl eq_refl) ltac:(discriminate))
    as (e & Hrun & Hname & _ & _ & Hin & _).
  exists e. split; [exact Hrun|]. split; [exact Hname | exact Hin].
Defined.

Lemma signUp_creates_user_witness :
  exists r u,
    AuthController.signUp (ext := Demo.world) Demo.minted
      (Demo.signUpRequest "Al" "al" "al@al.com" "secret") Demo.store
    = (Sent r,
       {| users := users Demo.store ++ [u]; socials := [];
          todos := todos Demo.store; nextId := 3 |}) /\
    status r = 201 /\
    IUserDocument.refreshTokens u = ["rft-john-3"] /\
    IUserDocument.lastName u = "" /\
    find (User.by_email "al@al.com") (users Demo.store ++ [u]) = Some u.
Proof.
  destruct (@signUp_creates_user Demo.world Demo.minted
              (Demo.signUpRequest "Al" "al" "al@al.com" "secret") Demo.store
              eq_refl eq_refl)
    as (r & u & Hrun & Hstatus & _ & Htokens & _ & Hlast & _ & _ & _ & _ & _
        & _ & _ & Hemail).
  exists r, u. repeat split; assumption.
Defined.

(* ------------------------------------------------------------------ *)
(** ** More on the gates and on sync                                   *)
(* ------------------------------------------------------------------ *)

Section MoreGates.
Context {ext : Externals}.

(** X10. The gate on [/:username/...] lets a request through exactly when
    some stored user has the username of the path; otherwise it hands an
    AuthorizationError to [next].  It sends nothing itself and never writes
    to the store. *)
Theorem authorizeUser_passes_iff (req : Request.t) (st : Store) :
  (fst (Authorize.authorizeUser req st) = Next
   <-> exists u, In u (users st) /\
         IUserDocument.username u = Request.params_username req) /\
  (fst (Authorize.authorizeUser req st) = Next \/
   fst (Authorize.authorizeUser req st)
   = NextErr (createError "AuthorizationError" "You are unauthorized!")) /\
  snd (Authorize.authorizeUser req st) = st.
Proof.
  unfold Authorize.authorizeUser, try_catch, bind, User.findOne, gets.
  destruct (find (User.by_username (Request.params_username req))
                 (users st)) as [found|] eqn:Hfind; simpl.
  - split; [|split; [now left | reflexivity]]. split; [|reflexivity].
    intros _. apply find_some in Hfind. destruct Hfind as [Hin Hq].
    exists found. split; [exact Hin|]. now apply String.eqb_eq in Hq.
  - split; [|split; [now right | reflexivity]]. split; [discriminate|].
    intros (u & Hin & Hname). apply (find_none _ _ Hfind) in Hin.
    unfold User.by_username in Hin.
    rewrite Hname, String.eqb_refl in Hin. discriminate.
Qed.

(** X11. The gate on [/:username/todos/:todoId] lets a request through
    exactly when the id of the path is accepted by [ObjectId], the first
    todo with that id exists and its owner is the username of the path.
    When [ObjectId] throws, its error is what reaches [next].  The gate
    never writes to the store. *)
Theorem authorizeTodo_passes_iff (req : Request.t) (st : Store) :
  (fst (Authorize.authorizeTodo req st) = Next
   <-> exists id found,
         ObjectId (Request.params_todoId req) = inr id /\
         find (fun d => ITodoDocument._id d =? id) (todos st) = Some found /\
         ITodoDocument.username found = Request.params_username req) /\
  (forall e, ObjectId (Request.params_todoId req) = inl e ->
     fst (Authorize.authorizeTodo req st) = NextErr e) /\
  snd (Authorize.authorizeTodo req st) = st.
Proof.
  unfold Authorize.authorizeTodo, try_catch, bind, lift, Todo.findOne, gets.
  destruct (ObjectId (Request.params_todoId req)) as [e|id] eqn:Hid; simpl.
  { split; [|split; [now intros e' [= <-] | reflexivity]].
    split; [discriminate|]. now intros (id & found & [=] & _). }
  destruct (find (fun d => ITodoDocument._id d =? id) (todos st))
    as [found|] eqn:Hfind; simpl.
  - destruct (String.eqb_spec (ITodoDocument.username found)
                              (Request.params_username req)) as [Hown|Hown];
      simpl.
    + split; [|split; [discriminate | reflexivity]].
      split; [|reflexivity]. intros _. now exists id, found.
    + split; [|split; [discriminate | reflexivity]].
      split; [discriminate|].
      intros (id' & found' & [= <-] & Hfind' & Hown').
      rewrite Hfind in Hfind'. injection Hfind' as <-. contradiction.
  - split; [|split; [discriminate | reflexivity]].
    split; [discriminate|].
    intros (id' & found' & [= <-] & Hfind' & _). congruence.
Qed.


(** X13. When the request carries an acting identity whose username a
    stored user has, sync answers 200 with that user's profile and with the
    todos of the store that have the acting username and are not completed:
    all of them, only them, in the order of the store.  The store stays as
    it is. *)
Theorem sync_incomplete_todos (req : Request.t) (st : Store)
    (acting : Claims.t) (u : IUserDocument.t) :
  Request.user req = Some acting ->
  find (User.by_username (Claims.username acting)) (users st) = Some u ->
  exists r listed,
    AuthController.sync req st = (Sent r, st) /\
    status r = 200 /\
    cookies r = [] /\
    field "todos" (json r) = Some (JArr (map ITodoDocument.toJson listed)) /\
    field "message" (json r) = Some (JStr "Successfully synced!") /\
    (forall d, In d listed
       <-> In d (todos st) /\
           ITodoDocument.username d = Claims.username acting /\
           ITodoDocument.completed d = false) /\
    (exists keep, listed = filter keep (todos st)).
Proof.
  intros Hacting Hfind.
  unfold AuthController.sync, try_catch. rewrite Hacting.
  unfold bind, User.findOne, Todo.find_incomplete, gets, ret.
  rewrite Hfind.
  do 2 eexists. split; [reflexivity|]. simpl.
  split; [reflexivity|]. split; [reflexivity|]. split; [reflexivity|].
  split; [reflexivity|]. split; [|eexists; reflexivity].
  intros d. rewrite filter_In, andb_true_iff, negb_true_iff.
  now rewrite String.eqb_eq.
Qed.

(** X14. Sync reads and never writes: the store after it is the store
    before it, whatever the request; without an acting identity, or with
    one that no stored user has, it sends nothing and hands a TypeError to
    [next]. *)
Theorem sync_read_only (req : Request.t) (st : Store) :
  snd (AuthController.sync req st) = st /\
  ((Request.user req = None \/
    exists acting,
      Request.user req = Some acting /\
      forall u, In u (users st) ->
        IUserDocument.username u <> Claims.username acting) ->
   exists m, fst (AuthController.sync req st) = NextErr (TypeError m)).
Proof.
  unfold AuthController.sync, try_catch.
  destruct (Request.user req) as [acting|].
  - unfold bind, User.findOne, Todo.find_incomplete, gets, ret.
    destruct (find _ (users st)) as [u|] eqn:Hfind.
    + split; [reflexivity|].
      intros [[=] | (acting' & [= <-] & Hnobody)].
      apply find_some in Hfind. destruct Hfind as [Hin Hq].
      apply String.eqb_eq in Hq. now apply Hnobody in Hin.
    + split; [reflexivity|]. intros _. eexists. reflexivity.
  - split; [reflexivity|]. intros _. eexists. reflexivity.
Qed.

End MoreGates.


Lemma sync_incomplete_todos_witness :
  exists r,
    AuthController.sync
      (Demo.routed (Some Demo.johnClaims) "johndoe" "") Demo.withJane
    = (Sent r, Demo.withJane) /\
    field "todos" (json r)
    = Some (JArr [ITodoDocument.toJson Demo.johnsTodo]).
Proof.
  destruct (sync_incomplete_todos
              (Demo.routed (Some Demo.johnClaims) "johndoe" "")
              Demo.withJane Demo.johnClaims Demo.john eq_refl eq_refl)
    as (r & listed & Hrun & _).
  exists r. split; [exact Hrun|].
  injection Hrun as <-. reflexivity.
Defined.

Lemma sync_read_only_witness :
  exists m,
    fst (AuthController.sync (Demo.routed None "johndoe" "") Demo.store)
    = NextErr (TypeError m).
Proof.
  apply (proj2 (sync_read_only (Demo.routed None "johndoe" "") Demo.store)).
  left. reflexivity.
Defined.

(* ------------------------------------------------------------------ *)
(** ** More on the sessions                                            *)
(* ------------------------------------------------------------------ *)

Lemma find_after_update {A} (p q : A -> bool) (f : A -> A) (l : list A)
    (a : A) :
  (forall x, q (f x) = q x) ->
  find q l = Some a ->
  find q (update_first p f l) = Some a \/
  find q (update_first p f l) = Some (f a).
Proof.
  intros Hq. induction l as [|x rest IH]; simpl; [discriminate|].
  destruct (q x) eqn:Hqx.
  - intros [= ->]. destruct (p a); simpl.
    + right. now rewrite Hq, Hqx.
    + left. now rewrite Hqx.
  - intros Hfind. destruct (p x); simpl.
    + left. now rewrite Hq, Hqx.
    + rewrite Hqx. now apply IH.
Qed.

(** Issuing a pair writes allowlists only. *)
Lemma generateUserTokens_frame (minted : Tokens.t) (claims : Claims.t)
    (purpose : option string) (st : Store) :
  exists st',
    generateUserTokens minted claims purpose st = (inr minted, st') /\
    socials st' = socials st /\ todos st' = todos st /\
    nextId st' = nextId st /\
    forall q a,
      (forall x l, q (IUserDocument.set_refreshTokens l x) = q x) ->
      find q (users st) = Some a ->
      exists a', find q (users st') = Some a' /\
                 IUserDocument._id a' = IUserDocument._id a.
Proof.
  unfold generateUserTokens, bind, ret, User.findOne, User.updateOne, gets,
    modify.
  destruct (match purpose with Some p => p =? "signUp" | None => false end).
  - exists st. repeat split. intros q a _ Hfind. now exists a.
  - destruct (find _ (users st)) as [owner|].
    + eexists. split; [reflexivity|]. simpl. repeat split.
      intros q a Hq Hfind.
      destruct (find_after_update
                  (User.by_username (Claims.username claims)) q
                  (IUserDocument.set_refreshTokens
                     (IUserDocument.refreshTokens owner
                      ++ [Tokens.refreshToken minted]))
                  (users st) a (fun x => Hq x _) Hfind) as [H | H];
        rewrite H; eexists; split; reflexivity.
    + exists st. repeat split. intros q a _ Hfind. now exists a.
Qed.

Section MoreSessions.
Context {ext : Externals}.


(** X16. Whenever sign-up, local sign-in or Google sign-in answers, it sets
    exactly the cookies [act], [rft] and [XSRF-TOKEN], in this order, and
    the [tokens] of the payload carry the same access token, refresh token
    and anti-forgery token as the cookies. *)
Theorem session_cookies_match_payload
    (handler : Tokens.t -> Request.t -> Store -> Outcome * Store)
    (minted : Tokens.t) (req : Request.t) (st : Store) (r : Response) :
  In handler [AuthController.signUp; AuthController.signIn;
              AuthController.googleSignIn] ->
  fst (handler minted req st) = Sent r ->
  exists tokens,
    cookies r = [cookie "act" (Tokens.accessToken tokens);
                 cookie "rft" (Tokens.refreshToken tokens);
                 cookie "XSRF-TOKEN" (Request.csrfToken req)] /\
    field "tokens" (json r)
    = Some (JObj [("accessToken", JStr (Tokens.accessToken tokens));
                  ("refreshToken", JStr (Tokens.refreshToken tokens));
                  ("csrfToken", JStr (Request.csrfToken req))]) /\
    (status r = 200 \/ status r = 201).
Proof.
  intros [<- | [<- | [<- | []]]].
  - unfold AuthController.signUp, try_catch.
    destruct (negb _); [discriminate|].
    unfold bind at 1. unfold User.findOne, gets.
    destruct (find _ (users st)) as [existed|].
    + destruct (_ =? _); [discriminate|]. destruct (_ =? _); discriminate.
    + unfold generateUserTokens. simpl. unfold bind, ret.
      destruct (User.create _ st) as [[e|u] st1]; [discriminate|].
      intros [= <-]. exists minted. simpl. now repeat split; try right.
  - unfold AuthController.signIn, try_catch.
    destruct (negb _); [discriminate|].
    unfold bind at 1. unfold User.findOne at 1, gets.
    destruct (find _ (users st)) as [found|]; [|discriminate].
    unfold bind at 1.
    destruct (generateUserTokens minted (claims_of found) None st)
      as [[e|tokens] st1]; [discriminate|].
    unfold bind, lift.
    destruct (compareSync _ _) as [e|[|]]; try discriminate.
    intros [= <-]. exists tokens. simpl. now repeat split; try left.
  - unfold AuthController.googleSignIn, try_catch.
    unfold bind at 1. unfold lift.
    destruct (verifyIdToken _) as [e|payload]; [discriminate|].
    unfold bind at 1. unfold User.findOne at 1, gets.
    unfold bind at 1. unfold Social.findOne, gets.
    destruct (find _ (users st)) as [existing|].
    + unfold bind at 1.
      match goal with
      | |- context [match ?c st with _ => _ end] =>
          destruct (c st) as [[e|[]] st1]
      end; [discriminate|].
      unfold bind at 1.
      destruct (generateUserTokens _ _ None st1) as [[e|tokens] st2];
        [discriminate|].
      unfold ret. intros [= <-]. exists tokens. simpl.
      now repeat split; try left.
    + unfold generateUserTokens. simpl. unfold bind at 1. unfold ret at 1.
      unfold bind at 1.
      destruct (User.create _ st) as [[e|u] st1]; [discriminate|].
      unfold bind, Social.create, ret.
      intros [= <-]. exists minted. simpl. now repeat split; try right.
Qed.

End MoreSessions.

Lemma session_cookies_match_payload_witness :
  exists r tokens,
    fst (AuthController.signIn (ext := Demo.world) Demo.minted
           (Demo.signInRequest "john@doe.com" "johndoe") Demo.store)
    = Sent r /\
    cookies r = [cookie "act" (Tokens.accessToken tokens);
                 cookie "rft" (Tokens.refreshToken tokens);
                 cookie "XSRF-TOKEN" "csrf"].
Proof.
  eexists.
  destruct (@session_cookies_match_payload Demo.world
              AuthController.signIn Demo.minted
              (Demo.signInRequest "john@doe.com" "johndoe") Demo.store _
              (or_intror (or_introl eq_refl)) eq_refl)
    as (tokens & Hcookies & _).
  exists tokens. split; [reflexivity | exact Hcookies].
Defined.

(* ------------------------------------------------------------------ *)
(** ** More on Google sign-in                                          *)
(* ------------------------------------------------------------------ *)

Lemma update_first_length {A} (p : A -> bool) (f : A -> A) (l : list A) :
  length (update_first p f l) = length l.
Proof.
  induction l as [|x rest IH]; simpl; [reflexivity|].
  destruct (p x); simpl; [reflexivity | now rewrite IH].
Qed.

Lemma generateUserTokens_length (minted : Tokens.t) (claims : Claims.t)
    (purpose : option string) (st : Store) :
  length (users (snd (generateUserTokens minted claims purpose st)))
  = length (users st).
Proof.
  unfold generateUserTokens, bind, ret, User.findOne, User.updateOne, gets,
    modify.
  destruct (match purpose with Some p => p =? "signUp" | None => false end);
    [reflexivity|].
  destruct (find _ (users st)); [|reflexivity].
  simpl. apply update_first_length.
Qed.

Section MoreSignIns.
Context {ext : Externals}.

(** The run of a Google sign-in that meets a stored user. *)
Lemma googleSignIn_existing_run (minted : Tokens.t) (req : Request.t)
    (st : Store) (payload : TokenPayload.t) (existing : IUserDocument.t) :
  verifyIdToken (Request.body_googleIdToken req) = inr payload ->
  find (User.by_email (TokenPayload.email payload)) (users st)
  = Some existing ->
  exists r st',
    AuthController.googleSignIn minted req st = (Sent r, st') /\
    status r = 200 /\
    socials st'
    = match find (googleLinked (TokenPayload.sub payload)) (socials st) with
      | Some _ => socials st
      | None => socials st ++ [googleLink (TokenPayload.sub payload) existing]
      end /\
    todos st' = todos st /\ nextId st' = nextId st /\
    length (users st') = length (users st) /\
    (exists existing',
       find (User.by_email (TokenPayload.email payload)) (users st')
       = Some existing' /\
       IUserDocument._id existing' = IUserDocument._id existing) /\
    field "user" (json r)
    = Some (JObj [("firstName", JStr (TokenPayload.given_name payload));
                  ("lastName", JStr (TokenPayload.family_name payload));
                  ("isUsernameSet",
                   JBool (IUserDocument.isUsernameSet existing));
                  ("username", JStr (TokenPayload.sub payload));
                  ("email", JStr (TokenPayload.email payload));
                  ("isPasswordSet",
                   JBool (IUserDocument.isPasswordSet existing));
                  ("verified", JBool (IUserDocument.verified existing));
                  ("apiKey", JStr (IUserDocument.apiKey existing));
                  ("profileImageURL",
                   JOpt (TokenPayload.picture payload))]).
Proof.
  intros Hverify Hfind.
  unfold AuthController.googleSignIn, try_catch.
  unfold bind at 1. unfold lift. rewrite Hverify.
  unfold bind at 1. unfold User.findOne at 1, gets. rewrite Hfind.
  unfold bind at 1. unfold Social.findOne, gets.
  fold (googleLinked (TokenPayload.sub payload)).
  destruct (find (googleLinked (TokenPayload.sub payload)) (socials st))
    as [s|] eqn:Hlink.
  - unfold bind at 1. unfold ret at 1. unfold bind at 1.
    match goal with
    | |- context [generateUserTokens minted ?c None st] =>
        pose proof (generateUserTokens_length minted c None st) as Hlen;
        destruct (generateUserTokens_frame minted c None st)
          as (st2 & Hissue & Hsocials & Htodos & Hnext & Hkeeps);
        rewrite Hissue in Hlen |- *
    end.
    unfold ret. do 2 eexists. split; [reflexivity|].
    repeat split; trivial.
    apply (Hkeeps _ existing); [reflexivity | exact Hfind].
  - unfold bind at 1. unfold bind at 1. unfold Social.create, ret at 1.
    unfold bind at 1.
    match goal with
    | |- context [generateUserTokens minted ?c None ?s1] =>
        pose proof (generateUserTokens_length minted c None s1) as Hlen;
        destruct (generateUserTokens_frame minted c None s1)
          as (st2 & Hissue & Hsocials & Htodos & Hnext & Hkeeps);
        rewrite Hissue in Hlen |- *
    end.
    unfold ret. do 2 eexists. split; [reflexivity|].
    repeat split; trivial.
    apply (Hkeeps _ existing); [reflexivity | exact Hfind].
Qed.

(** X17. A Google sign-in whose verified email a stored user has creates no
    user and answers 200.  The [user] of the payload takes its names, its
    email and its username from Google (the username is the [sub], whatever
    username is stored) and its flags and its [apiKey] from the stored
    user; the todos are untouched. *)
Theorem googleSignIn_existing_user (minted : Tokens.t) (req : Request.t)
    (st : Store) (payload : TokenPayload.t) (existing : IUserDocument.t) :
  verifyIdToken (Request.body_googleIdToken req) = inr payload ->
  find (User.by_email (TokenPayload.email payload)) (users st)
  = Some existing ->
  exists r,
    fst (AuthController.googleSignIn minted req st) = Sent r /\
    status r = 200 /\
    length (users (snd (AuthController.googleSignIn minted req st)))
    = length (users st) /\
    todos (snd (AuthController.googleSignIn minted req st)) = todos st /\
    field "user" (json r)
    = Some (JObj [("firstName", JStr (TokenPayload.given_name payload));
                  ("lastName", JStr (TokenPayload.family_name payload));
                  ("isUsernameSet",
                   JBool (IUserDocument.isUsernameSet existing));
                  ("username", JStr (TokenPayload.sub payload));
                  ("email", JStr (TokenPayload.email payload));
                  ("isPasswordSet",
                   JBool (IUserDocument.isPasswordSet existing));
                  ("verified", JBool (IUserDocument.verified existing));
                  ("apiKey", JStr (IUserDocument.apiKey existing));
                  ("profileImageURL",
                   JOpt (TokenPayload.picture payload))]).
Proof.
  intros Hverify Hfind.
  destruct (googleSignIn_existing_run minted req st payload existing
              Hverify Hfind)
    as (r & st' & Hrun & Hstatus & _ & Htodos & _ & Hlen & _ & Huser).
  exists r. rewrite Hrun. simpl. now repeat split.
Qed.

(** X18. The link to Google is made once.  A Google sign-in of a stored
    user appends the link of the subject id to that user when no link of
    this subject id is stored, and changes no link otherwise; so a second
    sign-in with the same id token, right after, stores no further link. *)
Theorem googleSignIn_links_once (minted again : Tokens.t) (req : Request.t)
    (st : Store) (payload : TokenPayload.t) (existing : IUserDocument.t) :
  verifyIdToken (Request.body_googleIdToken req) = inr payload ->
  find (User.by_email (TokenPayload.email payload)) (users st)
  = Some existing ->
  let st' := snd (AuthController.googleSignIn minted req st) in
  socials st'
  = match find (fun s =>
                  (ISocialDocument.name s =? "google")
                  && (ISocialDocument.socialId s
                      =? TokenPayload.sub payload))
               (socials st) with
    | Some _ => socials st
    | None =>
        socials st
        ++ [{| ISocialDocument.name := "google";
               ISocialDocument.socialId := TokenPayload.sub payload;
               ISocialDocument.userId := IUserDocument._id existing |}]
    end /\
  socials (snd (AuthController.googleSignIn again req st')) = socials st'.
Proof.
  intros Hverify Hfind st'. subst st'.
  destruct (googleSignIn_existing_run minted req st payload existing
              Hverify Hfind)
    as (r & st' & Hrun & _ & Hsocials & _ & _ & _
        & (existing' & Hfind' & _) & _).
  rewrite Hrun. simpl. split; [exact Hsocials|].
  destruct (googleSignIn_existing_run again req st' payload existing'
              Hverify Hfind')
    as (r2 & st2 & Hrun2 & _ & Hsocials2 & _).
  rewrite Hrun2. simpl. rewrite Hsocials2.
  assert (Hlinked : exists s,
            find (googleLinked (TokenPayload.sub payload)) (socials st')
            = Some s).
  { destruct (find (googleLinked (TokenPayload.sub payload)) (socials st))
      as [s|] eqn:Hlink; rewrite Hsocials.
    - exists s. exact Hlink.
    - eexists. apply find_app_last; [exact Hlink|].
      unfold googleLinked, googleLink. simpl. now rewrite String.eqb_refl. }
  destruct Hlinked as (s & ->). reflexivity.
Qed.

(** X19. A user signs in with the email as well as with the username: when
    the identifier of a sign-in that passes the field checks is nobody's
    username and [u] is the first stored user with this email, and the
    password matches, the answer is a 200 that carries the profile of
    [u]. *)
Theorem signIn_by_email (minted : Tokens.t) (req : Request.t) (st : Store)
    (u : IUserDocument.t) :
  signIn_valid req ->
  (forall v, In v (users st) ->
     IUserDocument.username v <> Request.body_userIdentifier req) ->
  find (User.by_email (Request.body_userIdentifier req)) (users st)
  = Some u ->
  compareSync (Request.body_password req) (IUserDocument.password u)
  = inr true ->
  exists r,
    fst (AuthController.signIn minted req st) = Sent r /\
    status r = 200 /\
    field "message" (json r) = Some (JStr "Successfully signed in!") /\
    field "user" (json r)
    = Some (JObj [("firstName", JStr (IUserDocument.firstName u));
                  ("lastName", JStr (IUserDocument.lastName u));
                  ("username", JStr (IUserDocument.username u));
                  ("email", JStr (IUserDocument.email u));
                  ("apiKey", JStr (IUserDocument.apiKey u))]).
Proof.
  intros Hvalid Hnobody Hfind Hcompare.
  assert (Hboth :
            find (User.by_username_or_email (Request.body_userIdentifier req)
                    (Request.body_userIdentifier req)) (users st) = Some u).
  { clear Hcompare. revert Hnobody Hfind.
    induction (users st) as [|x rest IH]; simpl; [discriminate|].
    intros Hnobody.
    assert (Hx : User.by_username (Request.body_userIdentifier req) x
                 = false).
    { unfold User.by_username. apply String.eqb_neq. apply Hnobody.
      now left. }
    unfold User.by_username_or_email. rewrite Hx. simpl.
    destruct (User.by_email (Request.body_userIdentifier req) x);
      [trivial|].
    apply IH. intros v Hv. apply Hnobody. now right. }
  unfold AuthController.signIn, try_catch.
  rewrite (valid_no_failure _ Hvalid).
  unfold bind at 1. unfold User.findOne at 1, gets. rewrite Hboth.
  unfold bind at 1.
  destruct (generateUserTokens_frame minted (claims_of u) None st)
    as (st1 & Hissue & _).
  rewrite Hissue. unfold bind, lift. rewrite Hcompare.
  eexists. split; [reflexivity|]. now repeat split.
Qed.

End MoreSignIns.

Lemma googleSignIn_existing_user_witness :
  exists r,
    fst (AuthController.googleSignIn (ext := Demo.world) Demo.minted
           (Demo.googleRequest "google-id-token") Demo.withJane) = Sent r /\
    status r = 200 /\
    field "user" (json r)
    = Some (JObj [("firstName", JStr "Jane");
                  ("lastName", JStr "Roe");
                  ("isUsernameSet", JBool true);
                  ("username", JStr "110169484474386276334");
                  ("email", JStr "jane@roe.com");
                  ("isPasswordSet", JBool true);
                  ("verified", JBool true);
                  ("apiKey", JStr "apiKey:janeroe:jane@roe.com");
                  ("profileImageURL", JStr "https://lh3/jane.png")]).
Proof.
  destruct (@googleSignIn_existing_user Demo.world Demo.minted
              (Demo.googleRequest "google-id-token") Demo.withJane _
              Demo.jane eq_refl eq_refl)
    as (r & Hsent & Hstatus & _ & _ & Huser).
  exists r. repeat split; assumption.
Defined.

Lemma googleSignIn_links_once_witness :
  socials (snd (AuthController.googleSignIn (ext := Demo.world) Demo.minted
                  (Demo.googleRequest "google-id-token") Demo.withJane))
  = [{| ISocialDocument.name := "google";
        ISocialDocument.socialId := "110169484474386276334";
        ISocialDocument.userId := 2 |}] /\
  socials (snd (AuthController.googleSignIn (ext := Demo.world) Demo.minted
                  (Demo.googleRequest "google-id-token")
                  (snd (AuthController.googleSignIn (ext := Demo.world)
                          Demo.minted
                          (Demo.googleRequest "google-id-token")
                          Demo.withJane))))
  = socials (snd (AuthController.googleSignIn (ext := Demo.world)
                    Demo.minted (Demo.googleRequest "google-id-token")
                    Demo.withJane)).
Proof.
  apply (@googleSignIn_links_once Demo.world Demo.minted Demo.minted
           (Demo.googleRequest "google-id-token") Demo.withJane _
           Demo.jane eq_refl eq_refl).
Defined.

Lemma signIn_by_email_witness :
  exists r,
    fst (AuthController.signIn (ext := Demo.world) Demo.minted
           (Demo.signInRequest "john@doe.com" "johndoe") Demo.store)
    = Sent r /\
    status r = 200.
Proof.
  destruct (@signIn_by_email Demo.world Demo.minted
              (Demo.signInRequest "john@doe.com" "johndoe") Demo.store
              Demo.john eq_refl)
    as (r & Hsent & Hstatus & _).
  - intros v [<- | [<- | []]]; discriminate.
  - reflexivity.
  - reflexivity.
  - now exists r.
Defined.
